(** * Research agent: the best-effort research pipeline of [research_agent.py]

    A shallow embedding of [ResearchAgent] (source discovery, content
    extraction, keyword synthesis, LLM-response cleaning, mock fallbacks)
    and the properties of its specification.

    Python [str] values are modelled as lists of characters whose code
    points are below 256 (the Latin-1 block of Unicode); on that block
    [lower], [strip], [splitlines] and the regular-expression class [\s]
    are written out exactly as CPython defines them. *)

From Stdlib Require Import Ascii String ZArith Lia Bool Arith.
From Stdlib Require Import List Permutation.
Import ListNotations.
Local Open Scope list_scope.

(** ** Python strings *)

Module Py.

Definition str := list ascii.

(** A string literal of the source. *)
Definition lit (s : string) : str := list_ascii_of_string s.

Definition code (c : ascii) : nat := nat_of_ascii c.

(** [c.isspace()], which is also the class [\s] of [re] on [str] patterns:
    U+0009..U+000D, U+001C..U+0020, U+0085 and U+00A0. *)
Definition isspace (c : ascii) : bool :=
  let n := code c in
  ((9 <=? n) && (n <=? 13)) || ((28 <=? n) && (n <=? 32))
  || (n =? 133) || (n =? 160).

(** [c.lower()]: A..Z and the accented capitals U+00C0..U+00DE (without the
    multiplication sign U+00D7) move 32 code points up. *)
Definition lower_char (c : ascii) : ascii :=
  let n := code c in
  if ((65 <=? n) && (n <=? 90))
     || ((192 <=? n) && (n <=? 222) && negb (n =? 215))
  then ascii_of_nat (n + 32) else c.

(** [s.lower()] *)
Definition lower (s : str) : str := map lower_char s.

(** [s.lstrip()], [s.rstrip()], [s.strip()] *)
Fixpoint lstrip (s : str) : str :=
  match s with
  | [] => []
  | c :: r => if isspace c then lstrip r else s
  end.

Definition rstrip (s : str) : str := rev (lstrip (rev s)).

Definition strip (s : str) : str := rstrip (lstrip s).

(** [s.startswith(p)], [s.endswith(p)] *)
Fixpoint startswith (s p : str) : bool :=
  match p, s with
  | [], _ => true
  | _ :: _, [] => false
  | a :: p', b :: s' => Ascii.eqb a b && startswith s' p'
  end.

Definition endswith (s p : str) : bool := startswith (rev s) (rev p).

(** [sub in s] *)
Fixpoint contains (sub s : str) : bool :=
  startswith s sub ||
  match s with
  | [] => false
  | _ :: r => contains sub r
  end.

(** [a == b] on strings *)
Fixpoint str_eqb (a b : str) : bool :=
  match a, b with
  | [], [] => true
  | x :: a', y :: b' => Ascii.eqb x y && str_eqb a' b'
  | _, _ => false
  end.

(** [x in l] for a list of strings *)
Definition mem (x : str) (l : list str) : bool := existsb (str_eqb x) l.

(** Slices [s[:n]], [s[n:]] and [s[:-k]] for literal [n], [k]. *)
Definition slice_to (n : nat) (s : str) : str := firstn n s.
Definition slice_from (n : nat) (s : str) : str := skipn n s.
Definition slice_to_neg (k : nat) (s : str) : str :=
  firstn (length s - k) s.

Definition cons_head (c : ascii) (l : list str) : list str :=
  match l with
  | [] => [[c]]
  | w :: ws => (c :: w) :: ws
  end.

(** [s.split(sep)] for a one-character separator *)
Fixpoint split (sep : ascii) (s : str) : list str :=
  match s with
  | [] => [[]]
  | c :: r => if Ascii.eqb c sep then [] :: split sep r
              else cons_head c (split sep r)
  end.

(** [s.split("  ")]: the separator is two spaces, matched left to right
    without overlap. *)
Fixpoint split_2sp (s : str) : list str :=
  match s with
  | [] => [[]]
  | c :: r =>
      match r with
      | [] => [[c]]
      | c2 :: r2 =>
          if Ascii.eqb c " "%char && Ascii.eqb c2 " "%char
          then [] :: split_2sp r2
          else cons_head c (split_2sp r)
      end
  end.

(** Line boundaries of [str.splitlines] below U+0100, other than CR. *)
Definition is_linebreak (c : ascii) : bool :=
  let n := code c in
  (n =? 10) || (n =? 11) || (n =? 12) || (n =? 28) || (n =? 29)
  || (n =? 30) || (n =? 133).

Fixpoint splitlines_from (cur : str) (s : str) : list str :=
  match s with
  | [] => match cur with [] => [] | _ => [rev cur] end
  | c :: r =>
      if code c =? 13 then
        match r with
        | c2 :: r2 =>
            if code c2 =? 10 then rev cur :: splitlines_from [] r2
            else rev cur :: splitlines_from [] r
        | [] => [rev cur]
        end
      else if is_linebreak c then rev cur :: splitlines_from [] r
      else splitlines_from (c :: cur) r
  end.

(** [s.splitlines()] *)
Definition splitlines (s : str) : list str := splitlines_from [] s.

(** [sep.join(l)] *)
Fixpoint join (sep : str) (l : list str) : str :=
  match l with
  | [] => []
  | x :: r => match r with
              | [] => x
              | _ :: _ => x ++ sep ++ join sep r
              end
  end.

Fixpoint sub_ws_from (in_run : bool) (s : str) : str :=
  match s with
  | [] => []
  | c :: r =>
      if isspace c
      then if in_run then sub_ws_from true r else " "%char :: sub_ws_from true r
      else c :: sub_ws_from false r
  end.

(** [re.sub(r'\s+', ' ', s)] *)
Definition sub_ws (s : str) : str := sub_ws_from false s.

(** [s.replace(a, b)] for one-character [a] and [b] *)
Definition replace (a b : ascii) (s : str) : str :=
  map (fun c => if Ascii.eqb c a then b else c) s.

(** Truthiness of a string or of a list: non-empty. *)
Definition truthy {A : Type} (l : list A) : bool :=
  match l with [] => false | _ :: _ => true end.

End Py.

(** ** Exceptions

    A Python call either returns or raises; [try_except] is
    [try: body except Exception: handler]. The exceptions are those the
    handlers of the source catch, the subclasses of [Exception]:
    [json.JSONDecodeError], which [_analyze_with_openai] names, and all
    others. *)

Inductive exception := JSONDecodeError | Error.

Inductive exn (A : Type) : Type :=
| Ret (a : A)
| Raise (e : exception).

Arguments Ret {A} a.
Arguments Raise {A} e.

Definition bind {A B : Type} (m : exn A) (k : A -> exn B) : exn B :=
  match m with
  | Ret a => k a
  | Raise e => Raise e
  end.

Notation "x <- m ;; k" := (bind m (fun x => k))
  (at level 61, m at next level, right associativity).

Definition try_except {A : Type} (body : exn A) (handler : exception -> exn A)
  : exn A :=
  match body with
  | Ret a => Ret a
  | Raise e => handler e
  end.

(** ** The research agent *)

Module Agent.
Import Py.

(** The dictionary held in [self.research_data] and returned by the keyword
    and mock paths. *)
Record ResearchData := mkData {
  key_points : list str;
  recent_developments : list str;
  challenges : list str;
  future_outlook : list str;
  sources : list str
}.

(** One entry of [all_content]: [{'content': ..., 'source': ...}]. *)
Record ContentItem := mkItem {
  content : str;
  source : str
}.

(** What [json.loads] can return. A number keeps its literal. *)
#[local] Unset Elimination Schemes.
Inductive json :=
| JNull
| JBool (b : bool)
| JNumber (literal : str)
| JString (s : str)
| JArray (items : list json)
| JObject (fields : list (str * json)).
#[local] Set Elimination Schemes.

(** What [research_topic] hands back: one of the agent's own dictionaries,
    or whatever [json.loads] made of the model's answer. *)
Inductive Result :=
| Record_ (d : ResearchData)
| Parsed (j : json).

(** The services the agent calls, each of which may raise.
    - [ddgs_text keywords max_results]: the ['href'] of every result of
      [DDGS().text], in order;
    - [page_text url]: the text that [requests.get], [raise_for_status],
      [BeautifulSoup], the removal of the unwanted tags, the selector loop
      and [get_text()] produce for [url] (lines 182-211);
    - [chat_completion topic combined_content sources]: the content of the
      first choice of the chat completion; the three arguments are the
      values interpolated into the fixed prompt;
    - [json_loads]: [json.loads]. *)
Record World := mkWorld {
  ddgs_text : str -> Z -> exn (list str);
  page_text : str -> exn str;
  chat_completion : str -> str -> list str -> exn str;
  json_loads : str -> exn json
}.

(** The instance. [setup_openai] fixes [client_available] in [__init__] and
    nothing changes it later; [research_data] is assigned something that is
    not one of the agent's dictionaries only in the branch that
    [client_available] guards. An instance without a client therefore always
    holds a [ResearchData]. *)
Inductive agent :=
| Basic (research_data : ResearchData)
| WithClient (research_data : Result).

Definition client_available (self : agent) : bool :=
  match self with
  | Basic _ => false
  | WithClient _ => true
  end.

Definition research_data (self : agent) : Result :=
  match self with
  | Basic d => Record_ d
  | WithClient r => r
  end.

Definition empty_data : ResearchData := mkData [] [] [] [] [].

(** [ResearchAgent()]; [has_client] says whether [setup_openai] found a key
    and built the client. *)
Definition __init__ (has_client : bool) : agent :=
  if has_client then WithClient (Record_ empty_data) else Basic empty_data.

Definition nl : str := [ascii_of_nat 10].

(** *** Source discovery *)

Definition reliable_domains : list str :=
  map lit
    ["wikipedia.org"; "arxiv.org"; "nature.com"; "science.org";
     "technologyreview.com"; "ieee.org"; "acm.org"; "nist.gov";
     "mit.edu"; "stanford.edu"; "researchgate.net"; "springer.com";
     "sciencedirect.com"; "towardsdatascience.com"; "techcrunch.com";
     "medium.com"; "github.com"; "stackoverflow.com"]%string.

Definition _is_reliable_source (url : str) : bool :=
  existsb (fun domain => contains domain (lower url)) reliable_domains.

Definition _get_mock_sources (topic : str) : list str :=
  [ lit "https://en.wikipedia.org/wiki/" ++ replace " "%char "_"%char topic;
    lit "https://arxiv.org/list/cs/recent";
    lit "https://www.technologyreview.com/" ].

(** The [for result in results] loop of [_search_web]; returning the list
    is the [break]. *)
Fixpoint search_loop (num_sources : Z) (results : list str)
  (sources : list str) : list str :=
  match results with
  | [] => sources
  | url :: rest =>
      if _is_reliable_source url then
        let sources := sources ++ [url] in
        if (Z.of_nat (length sources) >=? num_sources)%Z then sources
        else search_loop num_sources rest sources
      else search_loop num_sources rest sources
  end.

Definition _search_web (w : World) (topic : str) (num_sources : Z)
  : exn (list str) :=
  try_except
    (results <- ddgs_text w (topic ++ lit " technology research 2024")
                  (num_sources + 2)%Z ;;
     let sources := search_loop num_sources results [] in
     Ret (if truthy sources then sources else _get_mock_sources topic))
    (fun _ => Ret (_get_mock_sources topic)).

(** *** Content extraction *)

(** Lines 214-219: the clean-up of the extracted text. *)
Definition clean_text (text : str) : str :=
  let lines := map strip (splitlines text) in
  let chunks :=
    flat_map (fun line => map strip (split_2sp line)) lines in
  let text := join (lit " ") (filter truthy chunks) in
  sub_ws text.

(** [None] is Python's [None]. *)
Definition _extract_content (w : World) (url : str) : exn (option str) :=
  try_except
    (text <- page_text w url ;;
     let text := clean_text text in
     Ret (if truthy text then Some (strip (slice_to 2500 text)) else None))
    (fun _ => Ret None).

(** *** Keyword analysis *)

Definition key_point_keywords : list str :=
  map lit ["breakthrough"; "advance"; "discovery"; "innovation";
           "developed"; "created"; "achieved"; "successful"]%string.

Definition challenge_keywords : list str :=
  map lit ["challenge"; "limitation"; "problem"; "issue";
           "difficult"; "hard"; "bottleneck"; "constraint"]%string.

Definition future_keywords : list str :=
  map lit ["future"; "outlook"; "prediction"; "trend";
           "will"; "expected"; "potential"; "prospect"]%string.

(** [any(keyword in sentence_lower for keyword in keywords)] *)
Definition any_keyword (keywords : list str) (sentence_lower : str) : bool :=
  existsb (fun keyword => contains keyword sentence_lower) keywords.

Definition append_key_point (d : ResearchData) (s : str) : ResearchData :=
  mkData (key_points d ++ [s]) (recent_developments d) (challenges d)
         (future_outlook d) (sources d).

Definition append_challenge (d : ResearchData) (s : str) : ResearchData :=
  mkData (key_points d) (recent_developments d) (challenges d ++ [s])
         (future_outlook d) (sources d).

Definition append_future (d : ResearchData) (s : str) : ResearchData :=
  mkData (key_points d) (recent_developments d) (challenges d)
         (future_outlook d ++ [s]) (sources d).

(** A sentence is looked at when [30 < len(clean_sentence) < 300]. *)
Definition kept (clean_sentence : str) : bool :=
  (30 <? length clean_sentence) && (length clean_sentence <? 300).

(** The body of [for sentence in sentences] (lines 260-271). *)
Definition scan_sentence (d : ResearchData) (sentence : str) : ResearchData :=
  let clean_sentence := strip sentence in
  if kept clean_sentence then
    let sentence_lower := lower clean_sentence in
    let d :=
      if any_keyword key_point_keywords sentence_lower
      then append_key_point d (slice_to 250 clean_sentence) else d in
    let d :=
      if any_keyword challenge_keywords sentence_lower
      then append_challenge d (slice_to 250 clean_sentence) else d in
    if any_keyword future_keywords sentence_lower
    then append_future d (slice_to 250 clean_sentence) else d
  else d.

(** Lines 252-271: the whole loop over [content.split('.')]. *)
Definition scan_content (content : str) (d : ResearchData) : ResearchData :=
  fold_left scan_sentence (split "."%char content) d.

Definition recent_placeholder : str := lit "Recent developments in the field".

(** Line 274. *)
Definition derive_recent (key_points : list str) : list str :=
  if truthy key_points then firstn 2 key_points else [recent_placeholder].

Section Synthesis.

(** [set_list l] is [list(set(l))]: the entries of [l] without repetition,
    in the order in which the interpreter's hash table yields them. *)
Variable set_list : list str -> list str.

Definition set_list_spec : Prop :=
  forall l, NoDup (set_list l) /\ (forall x, In x (set_list l) <-> In x l).

(** [list(set(l))[:4]] *)
Definition unique_max4 (l : list str) : list str := firstn 4 (set_list l).

(** [_keyword_analysis(content, source_url, research_data)]; the dictionary
    it mutates is passed in and the mutated one returned. *)
Definition _keyword_analysis (content source_url : str) (d : ResearchData)
  : ResearchData :=
  let d := scan_content content d in
  let recent := derive_recent (key_points d) in
  let sources :=
    if negb (mem source_url (sources d)) then sources d ++ [source_url]
    else sources d in
  mkData (unique_max4 (key_points d)) recent (unique_max4 (challenges d))
         (unique_max4 (future_outlook d)) sources.

(** [for item in content_list: self._keyword_analysis(item['content'],
    item['source'], research_data)] *)
Definition keyword_loop (content_list : list ContentItem) (d : ResearchData)
  : ResearchData :=
  fold_left (fun d item => _keyword_analysis (content item) (source item) d)
            content_list d.

Definition key_points_placeholder : str :=
  lit "Key findings extracted from research content".
Definition challenges_placeholder : str :=
  lit "Various technical challenges identified".
Definition future_placeholder : str :=
  lit "Promising future developments expected".

Definition or_placeholder (l : list str) (p : str) : list str :=
  if negb (truthy l) then [p] else l.

Definition _fallback_analysis (content_list : list ContentItem)
  : ResearchData :=
  let d := keyword_loop content_list empty_data in
  mkData (or_placeholder (key_points d) key_points_placeholder)
         (recent_developments d)
         (or_placeholder (challenges d) challenges_placeholder)
         (or_placeholder (future_outlook d) future_placeholder)
         (map source content_list).

(** *** Analysis with the model *)

(** Lines 118-125: the cleaning of the model's answer. *)
Definition clean_response (message_content : str) : str :=
  let analysis := strip message_content in
  let analysis :=
    if startswith analysis (lit "```json") then slice_from 7 analysis
    else analysis in
  let analysis :=
    if endswith analysis (lit "```") then slice_to_neg 3 analysis
    else analysis in
  strip analysis.

Definition combined_content (content_list : list ContentItem) : str :=
  join (nl ++ nl)
    (map (fun item => lit "Source: " ++ source item ++ nl ++ lit "Content: "
                      ++ slice_to 800 (content item))
         content_list).

Definition _analyze_with_openai (w : World) (content_list : list ContentItem)
  (topic : str) : exn Result :=
  try_except
    (message_content <-
       chat_completion w topic (combined_content content_list)
         (map source content_list) ;;
     analysis <- json_loads w (clean_response message_content) ;;
     Ret (Parsed analysis))
    (fun e =>
       match e with
       | JSONDecodeError => Ret (Record_ (_fallback_analysis content_list))
       | Error => Ret (Record_ (_fallback_analysis content_list))
       end).

(** *** Mock data *)

Definition _get_mock_research_data (topic : str) : ResearchData :=
  mkData
    [ lit "Recent advances in " ++ topic
        ++ lit " show promising results for practical applications";
      lit "Major tech companies are investing heavily in " ++ topic
        ++ lit " research and development";
      lit "New algorithms and approaches in " ++ topic
        ++ lit " are solving previously intractable problems" ]
    [ lit "Breakthrough in " ++ topic
        ++ lit " stability and performance achieved in recent studies";
      lit "New government and private funding initiatives for " ++ topic
        ++ lit " research announced" ]
    [ lit "Scalability remains a major challenge for widespread " ++ topic
        ++ lit " adoption";
      lit "Technical limitations and resource requirements in " ++ topic
        ++ lit " need further research" ]
    [ lit "Industry experts predict " ++ topic
        ++ lit " will become commercially viable within 5-10 years";
      topic ++ lit " is expected to revolutionize multiple industries including healthcare, finance, and logistics" ]
    [ lit "https://en.wikipedia.org/wiki/Demonstration";
      lit "https://example.com/technical-research";
      lit "https://example.com/industry-analysis" ].

(** *** The pipeline *)

(** Lines 48-57: the extraction loop; [if content:] drops [None] and the
    empty string. *)
Fixpoint extract_all (w : World) (sources : list str)
  : exn (list ContentItem) :=
  match sources with
  | [] => Ret []
  | url :: rest =>
      content <- _extract_content w url ;;
      all_content <- extract_all w rest ;;
      Ret (match content with
           | Some content =>
               if truthy content then mkItem content url :: all_content
               else all_content
           | None => all_content
           end)
  end.

(** [research_topic(topic, num_sources)]: the value returned or the
    exception raised, and the instance afterwards. Every step that can
    raise comes before the first write to [self], so the handler sees the
    instance as it was. *)
Definition research_topic (w : World) (self : agent) (topic : str)
  (num_sources : Z) : exn Result * agent :=
  let body : exn (Result * agent) :=
    sources <- _search_web w topic num_sources ;;
    if negb (truthy sources)
    then Ret (Record_ (_get_mock_research_data topic), self)
    else
      all_content <- extract_all w sources ;;
      if negb (truthy all_content)
      then Ret (Record_ (_get_mock_research_data topic), self)
      else
        match self with
        | WithClient _ =>
            analysis <- _analyze_with_openai w all_content topic ;;
            Ret (analysis, WithClient analysis)
        | Basic d =>
            let d := keyword_loop all_content d in
            Ret (Record_ d, Basic d)
        end
  in
  match
    try_except body
      (fun _ => Ret (Record_ (_get_mock_research_data topic), self))
  with
  | Ret (r, self) => (Ret r, self)
  | Raise e => (Raise e, self)
  end.

End Synthesis.

End Agent.

(** ** Vocabulary of the specification *)

Module Spec.
Import Py Agent.

(** A string made of whitespace only. *)
Definition blank (s : str) : Prop := Forall (fun c => isspace c = true) s.

(** A string that neither starts nor ends with whitespace. *)
Definition tight (s : str) : Prop :=
  (forall c r, s = c :: r -> isspace c = false)
  /\ (forall c r, rev s = c :: r -> isspace c = false).

(** An entry is short when it has at most [n] characters. *)
Definition entries_le (n : nat) (l : list str) : Prop :=
  Forall (fun s => length s <= n) l.

(** Every entry of the four text lists has at most [n] characters. *)
Definition text_le (n : nat) (d : ResearchData) : Prop :=
  entries_le n (key_points d) /\ entries_le n (recent_developments d)
  /\ entries_le n (challenges d) /\ entries_le n (future_outlook d).

(** All five fields are non-empty lists. *)
Definition all_nonempty (d : ResearchData) : Prop :=
  key_points d <> [] /\ recent_developments d <> [] /\ challenges d <> []
  /\ future_outlook d <> [] /\ sources d <> [].

(** What an instance holds fits the 250-character bound. An instance with a
    client holds whatever the last analysis returned. *)
Definition agent_short (self : agent) : Prop :=
  match self with
  | Basic d => text_le 250 d
  | WithClient _ => True
  end.

(** The sentences of [content] that the loop looks at, stripped. *)
Definition kept_sentences (content : str) : list str :=
  filter kept (map strip (split "."%char content)).

(** What the loop appends to a category with keywords [keywords]. *)
Definition matches (keywords : list str) (content : str) : list str :=
  map (slice_to 250)
    (filter (fun clean => any_keyword keywords (lower clean))
       (kept_sentences content)).

(** What one sentence adds to the category with keywords [keywords]. *)
Definition added (keywords : list str) (sentence : str) : list str :=
  if kept (strip sentence)
     && any_keyword keywords (lower (strip sentence))
  then [slice_to 250 (strip sentence)] else [].

(** The host of a URL in the words of the specification: what stands
    between ["://"] and the next ["/"], ["?"] or ["#"]. *)
Fixpoint after_scheme (url : str) : str :=
  match url with
  | [] => []
  | c :: r => if startswith url (lit "://") then skipn 3 url
              else after_scheme r
  end.

Fixpoint until_delimiter (s : str) : str :=
  match s with
  | [] => []
  | c :: r =>
      if Ascii.eqb c "/"%char || Ascii.eqb c "?"%char || Ascii.eqb c "#"%char
      then [] else c :: until_delimiter r
  end.

Definition url_host (url : str) : str := until_delimiter (after_scheme url).

(** An answer wrapped in a fenced code block with the [json] tag; [w1] and
    [w2] are the whitespace (a newline, usually) around the content. *)
Definition fenced (w1 w2 t : str) : str :=
  lit "```json" ++ w1 ++ t ++ w2 ++ lit "```".

(** The double quote. *)
Definition dquote : ascii := ascii_of_nat 34.

(** The characters a JSON value can start and end with: an object, an
    array, a string, a number or one of the literals [true], [false],
    [null] (and [NaN], [Infinity], which [json.loads] accepts). *)
Definition json_first (c : ascii) : bool :=
  existsb (Ascii.eqb c) (dquote :: lit "{[-0123456789tfnNI").

Definition json_last (c : ascii) : bool :=
  existsb (Ascii.eqb c) (dquote :: lit "}]0123456789elNy").

(** The shape of every JSON text: around its whitespace, it starts and ends
    as a JSON value does. *)
Definition json_shaped (t : str) : bool :=
  match strip t, rev (strip t) with
  | a :: _, z :: _ => json_first a && json_last z
  | _, _ => false
  end.

(** One order in which a set can yield its entries. *)
Definition some_order (l : list str) : list str :=
  nodup (list_eq_dec ascii_dec) l.

(** *** Concrete inputs *)

(** No network: every service raises. *)
Definition offline : World :=
  mkWorld (fun _ _ => Raise Error) (fun _ => Raise Error)
          (fun _ _ _ => Raise Error) (fun _ => Raise JSONDecodeError).

(** A topic of 200 characters, the longest the web form lets through. *)
Definition long_topic : str := repeat "a"%char 200.

Definition wiki_url : str := lit "https://en.wikipedia.org/wiki/Qubit".
Definition arxiv_url : str := lit "https://arxiv.org/abs/2401.00001".

(** One page, found by the search, whose text holds no keyword. *)
Definition plain_page : str :=
  lit "The quick brown fox jumps over the lazy dog near the river bank. Short.".

Definition plain_world : World :=
  mkWorld (fun _ _ => Ret [arxiv_url]) (fun _ => Ret plain_page)
          (fun _ _ _ => Raise Error) (fun _ => Raise JSONDecodeError).

Definition breakthrough_sentence : str :=
  lit "This breakthrough in X was a challenge".

Definition key_sentence : str :=
  lit "Researchers achieved a breakthrough in qubit stability".
Definition challenge_sentence : str :=
  lit "Scaling the hardware remains a serious bottleneck".
Definition future_sentence : str :=
  lit "Analysts see great potential for the next decade".

(** One page with a sentence for each category. *)
Definition rich_page : str :=
  key_sentence ++ lit ". " ++ challenge_sentence ++ lit ". "
  ++ future_sentence ++ lit ".".

Definition rich_world : World :=
  mkWorld (fun _ _ => Ret [wiki_url]) (fun _ => Ret rich_page)
          (fun _ _ _ => Raise Error) (fun _ => Raise JSONDecodeError).

(** A search that returns nothing from the allow-list. *)
Definition unlisted_world : World :=
  mkWorld (fun _ _ => Ret [lit "https://totally-random-blog.test/post"])
          (fun _ => Ret plain_page)
          (fun _ _ _ => Raise Error) (fun _ => Raise JSONDecodeError).

(** One page that says the same sentence twice. *)
Definition repeated_page : str :=
  key_sentence ++ lit ". " ++ key_sentence ++ lit ".".

(** The URLs of [urls] that are not yet in [acc], appended to [acc] in the
    order in which they first occur. *)
Definition first_seen (acc urls : list str) : list str :=
  fold_left (fun acc url => if mem url acc then acc else acc ++ [url])
            urls acc.

(** A URL of a host outside the allow-list whose query names a listed
    domain. *)
Definition bypass_url : str :=
  lit "https://totally-random-blog.test/?ref=wikipedia.org".

(** A search whose only result is that URL. *)
Definition bypass_world : World :=
  mkWorld (fun _ _ => Ret [bypass_url]) (fun _ => Ret plain_page)
          (fun _ _ _ => Raise Error) (fun _ => Raise JSONDecodeError).

(** A search that lists one page twice, and a model that cannot be
    reached. *)
Definition twice_world : World :=
  mkWorld (fun _ _ => Ret [wiki_url; wiki_url]) (fun _ => Ret rich_page)
          (fun _ _ _ => Raise Error) (fun _ => Raise JSONDecodeError).

(** The world [w] in which the model answers [answer]. *)
Definition with_answer (w : World) (answer : str) : World :=
  mkWorld (ddgs_text w) (page_text w) (fun _ _ _ => Ret answer)
          (json_loads w).

End Spec.

(** ** The rest of the agent *)

Module Rest.
Import Py Agent Spec.

(** [_shorten_url(url)] (line 166): the form of a URL that the progress
    messages print. *)
Definition _shorten_url (url : str) : str :=
  if 50 <? length url then slice_to 50 url ++ lit "..." else url.

(** The verdict of the allow-list on a URL, as a proposition. *)
Definition reliable (url : str) : Prop := _is_reliable_source url = true.

(** Whether a text starts with a whitespace character. *)
Definition starts_with_space (s : str) : bool :=
  match s with
  | [] => false
  | c :: _ => isspace c
  end.

(** The only whitespace of a text is the space, and no two whitespace
    characters follow each other. *)
Fixpoint single_spaced (s : str) : bool :=
  match s with
  | [] => true
  | c :: r =>
      (negb (isspace c) || Ascii.eqb c " "%char)
      && negb (isspace c && starts_with_space r)
      && single_spaced r
  end.

(** Whether the extractor finds content at [url]. *)
Definition has_content (w : World) (url : str) : bool :=
  match _extract_content w url with
  | Ret (Some _) => true
  | _ => false
  end.

(** The three lists that keyword analysis fills from the sentences. *)
Inductive category := KeyPoint | Challenge | Outlook.

Definition entries (cat : category) (d : ResearchData) : list str :=
  match cat with
  | KeyPoint => key_points d
  | Challenge => challenges d
  | Outlook => future_outlook d
  end.

Definition keywords_of (cat : category) : list str :=
  match cat with
  | KeyPoint => key_point_keywords
  | Challenge => challenge_keywords
  | Outlook => future_keywords
  end.

(** The number of different entries of a list. *)
Definition distinct (l : list str) : nat := length (some_order l).

(** An entry as the sentence loop makes them: more than 30 and at most 250
    characters, none of them a period. *)
Definition sentence_entry (x : str) : Prop :=
  30 < length x <= 250 /\ ~ In "."%char x.

(** One call of [research_topic] on an instance: the services at the time
    of the call and the arguments. *)
Record Call := mkCall {
  call_world : World;
  call_topic : str;
  call_count : Z
}.

Section Runs.

Variable set_list : list str -> list str.

(** The instance after a series of calls. *)
Definition run_calls (calls : list Call) (self : agent) : agent :=
  fold_left
    (fun self c =>
       snd (research_topic set_list (call_world c) self (call_topic c)
              (call_count c)))
    calls self.

End Runs.

(** What an instance without client holds after any series of calls. *)
Definition instance_inv (d : ResearchData) : Prop :=
  NoDup (sources d) /\ Forall reliable (sources d)
  /\ length (recent_developments d) <= 2
  /\ forall cat,
      NoDup (entries cat d) /\ length (entries cat d) <= 4
      /\ Forall sentence_entry (entries cat d).

(** An answer wrapped in a fenced code block that names no language. *)
Definition fenced_untagged (w1 w2 t : str) : str :=
  lit "```" ++ w1 ++ t ++ w2 ++ lit "```".

(** The four text lists of a record, one after the other. *)
Definition text_entries (d : ResearchData) : list str :=
  key_points d ++ recent_developments d ++ challenges d ++ future_outlook d.

(** What the prompt shows of a page: its URL and the first 800 characters
    of its text. *)
Definition shown (item : ContentItem) : str * str :=
  (source item, slice_to 800 (content item)).

End Rest.

(** ** The web application ([app.py])

    Texts of the source that hold characters above U+00FF (the pictograms
    of the progress messages) stand in the literals as their UTF-8 bytes;
    nothing below looks into them. *)

Module App.
Import Py Agent Spec Rest.

(** [c.isalnum()] for one character below U+0100: the digits, the letters,
    and the superscripts, fractions, ordinal indicators and micro sign of
    Latin-1. *)
Definition isalnum_char (c : ascii) : bool :=
  let n := code c in
  ((48 <=? n) && (n <=? 57)) || ((65 <=? n) && (n <=? 90))
  || ((97 <=? n) && (n <=? 122)) || (n =? 170)
  || ((178 <=? n) && (n <=? 179)) || (n =? 181)
  || ((185 <=? n) && (n <=? 186)) || ((188 <=? n) && (n <=? 190))
  || ((192 <=? n) && (n <=? 214)) || ((216 <=? n) && (n <=? 246))
  || ((248 <=? n) && (n <=? 255)).

(** [s.isalnum()]: at least one character, all of them alphanumeric. *)
Definition isalnum (s : str) : bool := truthy s && forallb isalnum_char s.

(** *** Dictionaries with string keys

    A dictionary is the list of its items in insertion order; a key occurs
    once. *)

Section Dict.

Context {V : Type}.

(** [d.get(k)] *)
Fixpoint dict_get (k : str) (d : list (str * V)) : option V :=
  match d with
  | [] => None
  | (k', v) :: r => if str_eqb k k' then Some v else dict_get k r
  end.

(** [d[k] = v] *)
Fixpoint dict_set (k : str) (v : V) (d : list (str * V)) : list (str * V) :=
  match d with
  | [] => [(k, v)]
  | (k', v') :: r =>
      if str_eqb k k' then (k, v) :: r else (k', v') :: dict_set k v r
  end.

End Dict.

(** One entry of [research_results]: a dictionary of texts. *)
Definition Job := list (str * str).

(** [research_results] *)
Definition Table := list (str * Job).

(** What a view returns: a status code with the dictionary given to
    [jsonify], or the file given to [send_file]. *)
Inductive body :=
| Fields (fields : list (str * str))
| Attachment (filepath download_name : str).

Record response := mkResponse {
  status_code : nat;
  payload : body
}.

Definition error_response (code : nat) (message : string) : response :=
  mkResponse code (Fields [(lit "error", lit message)]).

(** *** [start_research] *)

Section Requests.

(** Whether the number that [json.loads] made of a literal is zero. *)
Variable zero_number : str -> bool.

(** [bool(data)] *)
Definition json_truthy (data : json) : bool :=
  match data with
  | JNull => false
  | JBool b => b
  | JNumber literal => negb (zero_number literal)
  | JString s => truthy s
  | JArray items => truthy items
  | JObject fields => truthy fields
  end.

(** The entry that [start_research] puts into the table. *)
Definition initial_job (topic now_iso : str) : Job :=
  [ (lit "status", lit "initializing");
    (lit "topic", topic);
    (lit "timestamp", now_iso);
    (lit "message", lit "🚀 Initializing research...") ].

(** [got] is what [request.get_json()] did: it raises on a request whose
    body is not JSON, and returns the parsed body otherwise ([None] is
    Python's [None]). [now_id] and [now_iso] are the two readings of the
    clock, as [strftime("%Y%m%d%H%M%S%f")] and [isoformat()] give them. A
    truthy body that is not an object has no [get], and a topic that is
    not a string has no [strip]: the view raises.

    The result is the response, the table as the view itself leaves it,
    and the arguments of the thread that it started, if it started one
    ([Thread.start] is taken to succeed). The thread runs beside the view
    and may write before the response is sent: the tables that it makes
    of this one, write after write, are [run_trace]. *)
Definition start_research (now_id now_iso : str) (table : Table)
  (got : exn (option json)) : exn (response * Table * option (str * str)) :=
  data <- got ;;
  match data with
  | None => Ret (error_response 400 "No JSON data provided", table, None)
  | Some data =>
      if negb (json_truthy data)
      then Ret (error_response 400 "No JSON data provided", table, None)
      else
        value <- match data with
                 | JObject fields =>
                     Ret (match dict_get (lit "topic") fields with
                          | Some value => value
                          | None => JString []
                          end)
                 | _ => Raise Error
                 end ;;
        topic <- match value with
                 | JString s => Ret (strip s)
                 | _ => Raise Error
                 end ;;
        if negb (truthy topic)
        then Ret (error_response 400 "Topic is required", table, None)
        else if 200 <? length topic
        then Ret (error_response 400 "Topic too long (max 200 characters)",
                  table, None)
        else
          let result_id := now_id in
          let table := dict_set result_id (initial_job topic now_iso) table in
          Ret (mkResponse 200
                 (Fields [ (lit "result_id", result_id);
                           (lit "status", lit "initializing");
                           (lit "message",
                            lit "Research started successfully!") ]),
               table, Some (topic, result_id))
  end.

End Requests.

(** The test of both views on the id of the URL. *)
Definition invalid_id (result_id : str) : bool :=
  negb (isalnum result_id) || (50 <? length result_id).

(** [research_results.get(result_id, {})] *)
Definition lookup_job (table : Table) (result_id : str) : Job :=
  match dict_get result_id table with
  | Some job => job
  | None => []
  end.

(** *** [get_research_status] *)
Definition get_research_status (table : Table) (result_id : str) : response :=
  if invalid_id result_id then error_response 400 "Invalid research ID"
  else
    let result := lookup_job table result_id in
    if negb (truthy result) then error_response 404 "Research not found"
    else mkResponse 200 (Fields result).

(** *** [download_presentation] *)

(** Line 139: the topic without the characters that are neither
    alphanumeric nor a space, a hyphen or an underscore, right-stripped. *)
Definition safe_char (c : ascii) : bool :=
  isalnum_char c
  || existsb (Ascii.eqb c) [" "%char; "-"%char; "_"%char].

Definition safe_topic (topic : str) : str := rstrip (filter safe_char topic).

Definition download_name (topic : str) : str :=
  lit "research_" ++ safe_topic topic ++ lit ".md".

(** [path_exists] is [os.path.exists], which reads a relative path from
    the working directory; [send_file filepath download_name] is
    [flask.send_file], which opens the file itself, reads a relative path
    from the root of the application, and raises when it finds no file
    there. [result['topic']] raises when the entry has no topic. *)
Definition download_presentation (path_exists : str -> bool)
  (send_file : str -> str -> exn unit) (table : Table) (result_id : str)
  : exn response :=
  if invalid_id result_id then Ret (error_response 400 "Invalid research ID")
  else
    let result := lookup_job table result_id in
    if negb (match dict_get (lit "status") result with
             | Some status => str_eqb status (lit "completed")
             | None => false
             end)
    then Ret (error_response 400 "Research not completed")
    else
      match dict_get (lit "filepath") result with
      | None => Ret (error_response 404 "File not found")
      | Some filepath =>
          if negb (truthy filepath) || negb (path_exists filepath)
          then Ret (error_response 404 "File not found")
          else
            topic <- match dict_get (lit "topic") result with
                     | Some topic => Ret topic
                     | None => Raise Error
                     end ;;
            _ <- send_file filepath (download_name topic) ;;
            Ret (mkResponse 200 (Attachment filepath (download_name topic)))
      end.

(** *** [ResearchThread.run]

    What the thread calls:
    - [make_agent] is [ResearchAgent()]: the constructor prints the
      message of [setup_openai], which raises on an output that cannot
      take its pictogram; otherwise it tells whether the client was built.
      Once it has printed, the messages of [research_topic] print as well;
    - [make_generator] is [PresentationGenerator()] and
      [generate_presentation] its method (of [presentation_generator.py],
      which is not part of these sources);
    - [write_file filepath presentation] writes the file;
    - [markdown_html] is [markdown.markdown], [path_join] is
      [os.path.join], [now_isoformat] the clock and [exception_text] is
      [str(e)]. *)
Record Services := mkServices {
  make_agent : exn bool;
  world : World;
  make_generator : exn unit;
  generate_presentation : Result -> str -> exn str;
  write_file : str -> str -> exn unit;
  markdown_html : str -> exn str;
  path_join : str -> str -> str;
  now_isoformat : str;
  exception_text : exception -> str
}.

(** [research_results[result_id][key] = value]; [None] is the [KeyError]
    of a missing entry. *)
Definition write_field (result_id key value : str) (table : Table)
  : option Table :=
  match dict_get result_id table with
  | None => None
  | Some job => Some (dict_set result_id (dict_set key value job) table)
  end.

Definition presentation_filename (result_id : str) : str :=
  lit "research_presentation_" ++ result_id ++ lit ".md".

(** Where the file of a job is written. *)
Definition job_filepath (sv : Services) (result_id : str) : str :=
  path_join sv (lit "uploads") (presentation_filename result_id).

Definition completed_job (sv : Services) (topic result_id presentation
  html_content : str) : Job :=
  [ (lit "status", lit "completed");
    (lit "topic", topic);
    (lit "presentation", presentation);
    (lit "html_content", html_content);
    (lit "filename", presentation_filename result_id);
    (lit "filepath", job_filepath sv result_id);
    (lit "timestamp", now_isoformat sv);
    (lit "message", lit "✅ Research completed!") ].

Definition error_job (sv : Services) (e : exception) : Job :=
  [ (lit "status", lit "error");
    (lit "error", exception_text sv e);
    (lit "timestamp", now_isoformat sv);
    (lit "message", lit "❌ Research failed") ].

Section Thread.

Variable set_list : list str -> list str.

(** The handler of [run]: the entry of the job becomes the error entry. *)
Definition failed (sv : Services) (result_id : str) (e : exception)
  (table : Table) : list Table :=
  [dict_set result_id (error_job sv e) table].

(** The tables that the thread makes of [table], one for each of its
    writes, in order. A raise anywhere in the [try] is followed by the
    write of the handler and nothing else. *)
Definition run_trace (sv : Services) (topic result_id : str) (table : Table)
  : list Table :=
  match make_agent sv with
  | Raise e => failed sv result_id e table
  | Ret has_client =>
  let research_agent := __init__ has_client in
  match make_generator sv with
  | Raise e => failed sv result_id e table
  | Ret _ =>
  match write_field result_id (lit "status") (lit "searching") table with
  | None => failed sv result_id Error table
  | Some t1 => t1 ::
  match write_field result_id (lit "message")
          (lit "🔍 Searching for reliable sources...") t1 with
  | None => failed sv result_id Error t1
  | Some t2 => t2 ::
  match fst (research_topic set_list (world sv) research_agent topic 3) with
  | Raise e => failed sv result_id e t2
  | Ret research_data =>
  match write_field result_id (lit "status") (lit "analyzing") t2 with
  | None => failed sv result_id Error t2
  | Some t3 => t3 ::
  match write_field result_id (lit "message")
          (lit "🤖 Analyzing content with AI...") t3 with
  | None => failed sv result_id Error t3
  | Some t4 => t4 ::
  match generate_presentation sv research_data topic with
  | Raise e => failed sv result_id e t4
  | Ret presentation =>
  match write_file sv (job_filepath sv result_id) presentation with
  | Raise e => failed sv result_id e t4
  | Ret _ =>
  match markdown_html sv presentation with
  | Raise e => failed sv result_id e t4
  | Ret html_content =>
      [dict_set result_id
         (completed_job sv topic result_id presentation html_content) t4]
  end end end end end end end end end end.

(** [run()]: the table when the thread has finished. *)
Definition run (sv : Services) (topic result_id : str) (table : Table)
  : Table :=
  last (run_trace sv topic result_id table) table.

(** What makes a thread end with an error: the agent cannot be built
    because its message cannot be printed, or the entry of the job is
    missing, or the generator cannot be built, or it raises on the
    research result, or the file cannot be written, or [markdown]
    raises. *)
Definition outside_failure (sv : Services) (topic result_id : str)
  (table : Table) : Prop :=
  (exists e, make_agent sv = Raise e)
  \/ dict_get result_id table = None
  \/ (exists e, make_generator sv = Raise e)
  \/ exists has_client research_data,
      make_agent sv = Ret has_client
      /\ fst (research_topic set_list (world sv) (__init__ has_client)
                topic 3) = Ret research_data
      /\ ((exists e, generate_presentation sv research_data topic = Raise e)
          \/ exists presentation,
              generate_presentation sv research_data topic = Ret presentation
              /\ ((exists e, write_file sv (job_filepath sv result_id)
                               presentation = Raise e)
                  \/ exists e, markdown_html sv presentation = Raise e)).

End Thread.

(** The status of a job in the table. *)
Definition job_status (table : Table) (result_id : str) : option str :=
  match dict_get result_id table with
  | Some job => dict_get (lit "status") job
  | None => None
  end.

(** What a request for the status of a job can show of an entry of the
    job on [topic]: one of the five statuses, and the topic unless the
    status is [error]. *)
Definition shows_job (topic : str) (job : Job) : Prop :=
  exists status,
    dict_get (lit "status") job = Some status
    /\ In status (map lit ["initializing"; "searching"; "analyzing";
                           "completed"; "error"]%string)
    /\ (status <> lit "error" -> dict_get (lit "topic") job = Some topic).

(** Services that all succeed, for a generator that prints the topic. *)
Definition plain_services : Services :=
  mkServices (Ret false) rich_world (Ret tt) (fun _ topic => Ret topic)
    (fun _ _ => Ret tt) (fun text => Ret text)
    (fun dir name => dir ++ lit "/" ++ name)
    (lit "2024-01-01T00:00:00") (fun _ => lit "error").

Definition some_id : str := lit "20240101120000000000".

(** A table with one finished job. *)
Definition finished_table : Table :=
  [ (some_id,
     completed_job plain_services (lit "qu/bits ") some_id (lit "text")
       (lit "html")) ].

End App.

(** ** Facts about the string operations *)

Module PyFacts.
Import Py Spec.

Lemma str_eqb_eq (a b : str) : str_eqb a b = true <-> a = b.
Proof.
  revert b; induction a as [|x a IH]; intros [|y b]; simpl;
    try (split; (reflexivity || discriminate)).
  rewrite andb_true_iff, Ascii.eqb_eq, IH.
  split; [intros [-> ->]; reflexivity | intros H; inversion H; auto].
Qed.

Lemma mem_In (x : str) (l : list str) : mem x l = true <-> In x l.
Proof.
  unfold mem; rewrite existsb_exists; split.
  - intros [y [Hy E]]. apply str_eqb_eq in E. now subst.
  - intros H. exists x. split; [assumption | now apply str_eqb_eq].
Qed.

Lemma mem_false (x : str) (l : list str) : mem x l = false <-> ~ In x l.
Proof.
  rewrite <- mem_In. destruct (mem x l); split; intros; congruence.
Qed.

Lemma startswith_iff (s p : str) :
  startswith s p = true <-> exists r, s = p ++ r.
Proof.
  revert s; induction p as [|a p IH]; intros s; simpl.
  - destruct s; split; eauto.
  - destruct s as [|b s].
    + split; [discriminate | intros [r H]; discriminate].
    + simpl. rewrite andb_true_iff, Ascii.eqb_eq, IH. split.
      * intros [-> [r ->]]. now exists r.
      * intros [r H]. inversion H. eauto.
Qed.

Lemma startswith_head (s p : str) (a b : ascii) :
  a <> b -> startswith (a :: s) (b :: p) = false.
Proof.
  intros H; simpl. destruct (Ascii.eqb b a) eqn:E; [|reflexivity].
  apply Ascii.eqb_eq in E. congruence.
Qed.

Lemma contains_prefix (sub s : str) :
  startswith s sub = true -> contains sub s = true.
Proof. intros H; destruct s; cbn [contains]; rewrite H; reflexivity. Qed.

Lemma contains_app_l (sub a s : str) :
  contains sub s = true -> contains sub (a ++ s) = true.
Proof.
  intros H; induction a as [|x a IH]; [assumption|].
  cbn [app contains]. rewrite IH. apply orb_true_r.
Qed.

Lemma contains_iff (sub s : str) :
  contains sub s = true <-> exists a b, s = a ++ sub ++ b.
Proof.
  split.
  - induction s as [|x s IH]; cbn [contains]; rewrite orb_true_iff.
    + intros [H|H]; [|discriminate].
      apply startswith_iff in H as [r ->]. now exists [], r.
    + intros [H|H].
      * apply startswith_iff in H as [r ->]. now exists [], r.
      * destruct (IH H) as [a [b ->]]. now exists (x :: a), b.
  - intros [a [b ->]]. apply contains_app_l, contains_prefix.
    apply startswith_iff. now exists b.
Qed.

Lemma lower_app (a b : str) : lower (a ++ b) = lower a ++ lower b.
Proof. apply map_app. Qed.

Lemma length_lower (s : str) : length (lower s) = length s.
Proof. apply length_map. Qed.

(** *** Stripping *)

Lemma length_lstrip (s : str) : length (lstrip s) <= length s.
Proof.
  induction s as [|c s IH]; simpl; [lia|].
  destruct (isspace c); simpl; lia.
Qed.

Lemma length_rstrip (s : str) : length (rstrip s) <= length s.
Proof.
  unfold rstrip. rewrite length_rev.
  etransitivity; [apply length_lstrip|]. now rewrite length_rev.
Qed.

Lemma length_strip (s : str) : length (strip s) <= length s.
Proof.
  unfold strip. etransitivity; [apply length_rstrip | apply length_lstrip].
Qed.

Lemma lstrip_head (s r : str) (c : ascii) :
  lstrip s = c :: r -> isspace c = false.
Proof.
  induction s as [|x s IH]; simpl; [discriminate|].
  destruct (isspace x) eqn:E; [assumption|].
  intros H; inversion H; subst; assumption.
Qed.

Lemma lstrip_blank_app (w t : str) : blank w -> lstrip (w ++ t) = lstrip t.
Proof.
  induction 1 as [|c w Hc _ IH]; simpl; [reflexivity|].
  now rewrite Hc.
Qed.

Lemma lstrip_blank (w : str) : blank w -> lstrip w = [].
Proof.
  intros H. rewrite <- (app_nil_r w). now rewrite lstrip_blank_app.
Qed.

Lemma lstrip_app (x y : str) :
  lstrip (x ++ y) =
  match lstrip x with [] => lstrip y | _ :: _ => lstrip x ++ y end.
Proof.
  induction x as [|c x IH]; simpl; [reflexivity|].
  destruct (isspace c); [assumption | reflexivity].
Qed.

Lemma blank_rev (w : str) : blank w -> blank (rev w).
Proof. unfold blank. apply Forall_rev. Qed.

Lemma rstrip_cons (c : ascii) (r : str) :
  rstrip (c :: r) =
  match rstrip r with
  | [] => if isspace c then [] else [c]
  | _ :: _ => c :: rstrip r
  end.
Proof.
  unfold rstrip; simpl. rewrite lstrip_app.
  destruct (lstrip (rev r)) as [|a l] eqn:E; simpl.
  - destruct (isspace c); reflexivity.
  - rewrite rev_app_distr; simpl.
    destruct (rev l ++ [a]) eqn:E'; [|reflexivity].
    destruct (rev l); discriminate.
Qed.

Lemma rstrip_app_blank (t w : str) : blank w -> rstrip (t ++ w) = rstrip t.
Proof.
  intros H. unfold rstrip. rewrite rev_app_distr.
  now rewrite lstrip_blank_app by now apply blank_rev.
Qed.

Lemma lstrip_rstrip (s : str) : lstrip (rstrip s) = rstrip (lstrip s).
Proof.
  induction s as [|c s IH]; [reflexivity|].
  rewrite rstrip_cons. simpl lstrip at 2.
  destruct (isspace c) eqn:E.
  - destruct (rstrip s) as [|a l] eqn:R.
    + rewrite <- IH. reflexivity.
    + simpl. rewrite E. exact IH.
  - rewrite rstrip_cons.
    destruct (rstrip s); simpl; rewrite E; reflexivity.
Qed.

Lemma strip_blank_around (w1 w2 t : str) :
  blank w1 -> blank w2 -> strip (w1 ++ t ++ w2) = strip t.
Proof.
  intros H1 H2. unfold strip.
  rewrite lstrip_blank_app by assumption.
  rewrite <- !lstrip_rstrip. now rewrite rstrip_app_blank.
Qed.

Lemma lstrip_fix (s : str) :
  (forall c r, s = c :: r -> isspace c = false) -> lstrip s = s.
Proof.
  destruct s as [|c r]; simpl; [reflexivity|].
  intros H. now rewrite (H c r eq_refl).
Qed.

Lemma strip_tight (s : str) : tight s -> strip s = s.
Proof.
  intros [H1 H2]. unfold strip, rstrip.
  rewrite (lstrip_fix s H1), (lstrip_fix (rev s) H2). apply rev_involutive.
Qed.

Lemma tight_strip (s : str) : tight (strip s).
Proof.
  split.
  - unfold strip. rewrite <- lstrip_rstrip. intros c r. apply lstrip_head.
  - unfold strip, rstrip. rewrite rev_involutive. intros c r. apply lstrip_head.
Qed.

Lemma strip_idem (s : str) : strip (strip s) = strip s.
Proof. apply strip_tight, tight_strip. Qed.

Lemma strip_head (s r : str) (c : ascii) :
  strip s = c :: r -> isspace c = false.
Proof. intros H. exact (proj1 (tight_strip s) c r H). Qed.

End PyFacts.

(** ** Properties of the agent *)

Module Properties.
Import Py Agent Spec PyFacts.

(** *** Source discovery *)

Lemma reliable_iff (url : str) :
  _is_reliable_source url = true <->
  exists domain, In domain reliable_domains
                 /\ contains domain (lower url) = true.
Proof. unfold _is_reliable_source. apply existsb_exists. Qed.

(** A URL is accepted as soon as its host, in any letter case, contains a
    listed domain, whatever stands before and after the host. *)
Lemma reliable_if_host_listed (before host after domain : str) :
  In domain reliable_domains -> contains domain (lower host) = true ->
  _is_reliable_source (before ++ host ++ after) = true.
Proof.
  intros Hd Hc. apply reliable_iff. exists domain. split; [assumption|].
  apply contains_iff in Hc as [a [b E]]. apply contains_iff.
  exists (lower before ++ a), (b ++ lower after).
  rewrite !lower_app, E, <- !app_assoc. reflexivity.
Qed.

Lemma wikipedia_host_accepted (before after : str) :
  _is_reliable_source (before ++ lit "en.wikipedia.org" ++ after) = true.
Proof.
  apply reliable_if_host_listed with (domain := lit "wikipedia.org").
  - left; reflexivity.
  - reflexivity.
Qed.

(** C2 (the code against the claim): the check looks for a listed domain
    anywhere in the lower-cased URL, not in its host. A URL whose host is
    [totally-random-blog.test], which contains no listed domain, is
    accepted because its query names [wikipedia.org], and discovery returns
    it as a source. *)
Theorem reliable_check_reads_whole_url :
  url_host bypass_url = lit "totally-random-blog.test"
  /\ existsb (fun domain => contains domain (lower (url_host bypass_url)))
       reliable_domains = false
  /\ _is_reliable_source bypass_url = true
  /\ _search_web bypass_world (lit "qubits") 3 = Ret [bypass_url].
Proof. repeat split; vm_compute; reflexivity. Qed.

Lemma truthy_firstn {A : Type} (k : nat) (l : list A) :
  1 <= k -> truthy (firstn k l) = truthy l.
Proof. destruct k; [lia|]. destruct l; reflexivity. Qed.

(** The loop of [_search_web] started with [sources] already accepted. *)
Lemma search_loop_spec (n : Z) (results sources : list str) :
  search_loop n results sources =
  sources ++ firstn (Z.to_nat (Z.max 1 (n - Z.of_nat (length sources))))
                    (filter _is_reliable_source results).
Proof.
  revert sources; induction results as [|url rest IH]; intros sources; simpl.
  - now rewrite firstn_nil, app_nil_r.
  - destruct (_is_reliable_source url); [|apply IH].
    rewrite length_app; simpl length.
    destruct (Z.geb_spec (Z.of_nat (length sources + 1)) n) as [H|H].
    + replace (Z.to_nat (Z.max 1 (n - Z.of_nat (length sources)))) with 1%nat
        by lia.
      reflexivity.
    + rewrite IH, length_app; simpl length.
      replace (Z.to_nat (Z.max 1 (n - Z.of_nat (length sources))))
        with (S (Z.to_nat (Z.max 1 (n - Z.of_nat (length sources + 1)))))
        by lia.
      simpl. now rewrite <- app_assoc.
Qed.

(** C5 (the claim as stated fails): with two URLs asked for and a search
    that raises, discovery returns the three mock URLs. *)
Lemma discovery_exceeds_count :
  _search_web offline (lit "ai") 2 = Ret (_get_mock_sources (lit "ai"))
  /\ (2 < Z.of_nat (length (_get_mock_sources (lit "ai"))))%Z.
Proof. split; [reflexivity | vm_compute; reflexivity]. Qed.

(** C5 (amended): when the search raises, or accepts nothing, discovery
    returns exactly the three mock URLs whatever the count asked for, the
    first being the encyclopedia URL of the topic with its spaces turned
    into underscores; otherwise it returns the first [max 1 num_sources]
    accepted URLs, in the order of the results and without padding. *)
Theorem discovery_result (w : World) (topic : str) (num_sources : Z) :
  match ddgs_text w (topic ++ lit " technology research 2024")
          (num_sources + 2)%Z with
  | Raise _ => _search_web w topic num_sources = Ret (_get_mock_sources topic)
  | Ret results =>
      match filter _is_reliable_source results with
      | [] => _search_web w topic num_sources = Ret (_get_mock_sources topic)
      | accepted =>
          let found := firstn (Z.to_nat (Z.max 1 num_sources)) accepted in
          _search_web w topic num_sources = Ret found
          /\ (Z.of_nat (length found) <= Z.max 1 num_sources)%Z
          /\ length found = Nat.min (Z.to_nat (Z.max 1 num_sources))
                                    (length accepted)
      end
  end
  /\ _get_mock_sources topic =
       [ lit "https://en.wikipedia.org/wiki/" ++ replace " "%char "_"%char topic;
         lit "https://arxiv.org/list/cs/recent";
         lit "https://www.technologyreview.com/" ].
Proof.
  split; [|reflexivity].
  unfold _search_web.
  destruct (ddgs_text w _ _) as [results|e]; simpl; [|reflexivity].
  rewrite search_loop_spec; simpl length; simpl app.
  rewrite Z.sub_0_r.
  destruct (filter _is_reliable_source results) as [|u accepted] eqn:E.
  - now rewrite firstn_nil.
  - rewrite truthy_firstn by lia. simpl truthy. cbv zeta.
    split; [reflexivity|]. rewrite length_firstn. simpl length.
    split; lia.
Qed.

(** *** Content extraction *)

Lemma extract_content_eq (w : World) (url : str) :
  _extract_content w url =
  match page_text w url with
  | Ret text =>
      match clean_text text with
      | [] => Ret None
      | cleaned => Ret (Some (strip (slice_to 2500 cleaned)))
      end
  | Raise _ => Ret None
  end.
Proof.
  unfold _extract_content. destruct (page_text w url) as [text|e]; simpl;
    [|reflexivity].
  destruct (clean_text text); reflexivity.
Qed.

(** C6: whatever the page, the extractor returns (it never raises), a text
    it returns has at most 2500 characters, and it returns [None] when the
    text is empty after the clean-up. *)
Theorem extract_bounded (w : World) (url : str) :
  match _extract_content w url with
  | Ret (Some text) => length text <= 2500
  | Ret None => True
  | Raise _ => False
  end
  /\ match page_text w url with
     | Ret text =>
         match clean_text text with
         | [] => _extract_content w url = Ret None
         | cleaned =>
             _extract_content w url = Ret (Some (strip (slice_to 2500 cleaned)))
         end
     | Raise _ => _extract_content w url = Ret None
     end.
Proof.
  rewrite extract_content_eq.
  destruct (page_text w url) as [text|e]; [|split; [exact I | reflexivity]].
  destruct (clean_text text) as [|c cleaned]; [split; [exact I | reflexivity]|].
  split; [|reflexivity].
  etransitivity; [apply length_strip|]. unfold slice_to.
  rewrite length_firstn. lia.
Qed.

(** *** Cleaning of the model's answer *)

Lemma backtick_not_json_first (c : ascii) :
  json_first c = true -> c <> "`"%char.
Proof. intros H ->. discriminate H. Qed.

Lemma backtick_not_json_last (c : ascii) :
  json_last c = true -> c <> "`"%char.
Proof. intros H ->. discriminate H. Qed.

Lemma tight_fenced (w1 w2 t : str) : tight (fenced w1 w2 t).
Proof.
  split; unfold fenced.
  - intros c r H. inversion H. reflexivity.
  - rewrite !rev_app_distr. intros c r H. inversion H. reflexivity.
Qed.

Lemma slice_to_neg_app (x p : str) :
  slice_to_neg (length p) (x ++ p) = x.
Proof.
  unfold slice_to_neg. rewrite length_app, Nat.add_sub, firstn_app.
  now rewrite Nat.sub_diag, firstn_all, app_nil_r.
Qed.

Lemma endswith_app (x p : str) : endswith (x ++ p) p = true.
Proof.
  unfold endswith. rewrite rev_app_distr. apply startswith_iff. eauto.
Qed.

Lemma clean_response_fenced (w1 w2 t : str) :
  blank w1 -> blank w2 -> clean_response (fenced w1 w2 t) = strip t.
Proof.
  intros H1 H2. unfold clean_response.
  rewrite (strip_tight _ (tight_fenced w1 w2 t)).
  replace (startswith (fenced w1 w2 t) (lit "```json")) with true
    by (symmetry; apply startswith_iff; eexists; reflexivity).
  replace (slice_from 7 (fenced w1 w2 t))
    with ((w1 ++ t ++ w2) ++ lit "```")
    by (unfold fenced; rewrite <- !app_assoc; reflexivity).
  rewrite endswith_app.
  change 3 with (length (lit "```")). rewrite slice_to_neg_app.
  now apply strip_blank_around.
Qed.

Lemma clean_response_shaped (t : str) :
  json_shaped t = true -> clean_response t = strip t.
Proof.
  unfold json_shaped, clean_response, endswith. intros H.
  destruct (strip t) as [|a r] eqn:Ea; [discriminate|].
  destruct (rev (a :: r)) as [|z r'] eqn:Ez; [discriminate|].
  apply andb_true_iff in H as [Ha Hz].
  change (lit "```json") with ("`"%char :: lit "``json").
  rewrite (startswith_head r _ a "`"%char)
    by (apply not_eq_sym; intros E; symmetry in E;
        revert E; now apply backtick_not_json_first).
  rewrite Ez.
  change (rev (lit "```")) with ("`"%char :: lit "``").
  rewrite (startswith_head r' _ z "`"%char)
    by (apply not_eq_sym; intros E; symmetry in E;
        revert E; now apply backtick_not_json_last).
  rewrite <- Ea. apply strip_idem.
Qed.

Lemma analyze_with_answer (set_list : list str -> list str) (w : World)
  (answer : str) (items : list ContentItem) (topic : str) :
  _analyze_with_openai set_list (with_answer w answer) items topic =
  match json_loads w (clean_response answer) with
  | Ret analysis => Ret (Parsed analysis)
  | Raise _ => Ret (Record_ (_fallback_analysis set_list items))
  end.
Proof.
  unfold _analyze_with_openai, with_answer.
  cbn [chat_completion json_loads bind try_except].
  destruct (json_loads w (clean_response answer)) as [j|[|]]; reflexivity.
Qed.

(** C8: for every text [t] with the shape of a JSON text, the answer that
    wraps [t] in a fence with the [json] tag is cleaned to the same text as
    the answer [t] itself, namely [t] without its outer whitespace; so
    [json.loads] is applied to the same text, and [_analyze_with_openai]
    returns the same for both answers. *)
Theorem fenced_answer_parses_alike (set_list : list str -> list str)
  (w : World) (t w1 w2 : str) (items : list ContentItem) (topic : str) :
  json_shaped t = true -> blank w1 -> blank w2 ->
  clean_response (fenced w1 w2 t) = strip t
  /\ clean_response t = strip t
  /\ json_loads w (clean_response (fenced w1 w2 t))
     = json_loads w (clean_response t)
  /\ _analyze_with_openai set_list (with_answer w (fenced w1 w2 t)) items
       topic
     = _analyze_with_openai set_list (with_answer w t) items topic.
Proof.
  intros Ht H1 H2. rewrite !analyze_with_answer.
  rewrite (clean_response_fenced w1 w2 t H1 H2), (clean_response_shaped t Ht).
  auto.
Qed.

Lemma fenced_answer_parses_alike_witness :
  json_shaped (lit "[1, 2]") = true
  /\ clean_response (fenced nl nl (lit "[1, 2]")) = lit "[1, 2]"
  /\ json_loads offline (clean_response (fenced nl nl (lit "[1, 2]")))
     = json_loads offline (clean_response (lit "[1, 2]")).
Proof.
  assert (B : blank nl) by (repeat constructor).
  destruct (fenced_answer_parses_alike some_order offline (lit "[1, 2]")
              nl nl [] [] eq_refl B B) as [E [_ [P _]]].
  split; [reflexivity|]. split; [exact E | exact P].
Defined.

(** *** The sentence loop *)

Lemma in_firstn {A : Type} (n : nat) (l : list A) (x : A) :
  In x (firstn n l) -> In x l.
Proof.
  intros H. rewrite <- (firstn_skipn n l). apply in_or_app. now left.
Qed.

Lemma scan_sentence_fields (d : ResearchData) (sentence : str) :
  scan_sentence d sentence =
  mkData (key_points d ++ added key_point_keywords sentence)
         (recent_developments d)
         (challenges d ++ added challenge_keywords sentence)
         (future_outlook d ++ added future_keywords sentence)
         (sources d).
Proof.
  unfold scan_sentence, added.
  destruct (kept (strip sentence));
    destruct (any_keyword key_point_keywords (lower (strip sentence)));
    destruct (any_keyword challenge_keywords (lower (strip sentence)));
    destruct (any_keyword future_keywords (lower (strip sentence)));
    destruct d as [kp rd ch fo so];
    unfold append_key_point, append_challenge, append_future;
    cbn [key_points recent_developments challenges future_outlook sources
         andb];
    rewrite ?app_nil_r; reflexivity.
Qed.

Lemma flat_map_added (keywords : list str) (sentences : list str) :
  flat_map (added keywords) sentences =
  map (slice_to 250)
    (filter (fun clean => any_keyword keywords (lower clean))
       (filter kept (map strip sentences))).
Proof.
  induction sentences as [|s l IH]; simpl; [reflexivity|].
  unfold added at 1. destruct (kept (strip s)); simpl; [|exact IH].
  destruct (any_keyword keywords (lower (strip s))); simpl; now rewrite IH.
Qed.

Lemma scan_fold_fields (sentences : list str) (d : ResearchData) :
  fold_left scan_sentence sentences d =
  mkData (key_points d ++ flat_map (added key_point_keywords) sentences)
         (recent_developments d)
         (challenges d ++ flat_map (added challenge_keywords) sentences)
         (future_outlook d ++ flat_map (added future_keywords) sentences)
         (sources d).
Proof.
  revert d; induction sentences as [|s l IH]; intros d; simpl.
  - rewrite !app_nil_r. now destruct d.
  - rewrite IH, scan_sentence_fields; simpl. now rewrite <- !app_assoc.
Qed.

(** The loop appends to each category, in order, the kept sentences that
    match it, cut to 250 characters, and touches nothing else. *)
Lemma scan_content_fields (content : str) (d : ResearchData) :
  scan_content content d =
  mkData (key_points d ++ matches key_point_keywords content)
         (recent_developments d)
         (challenges d ++ matches challenge_keywords content)
         (future_outlook d ++ matches future_keywords content)
         (sources d).
Proof.
  unfold scan_content, matches, kept_sentences.
  rewrite scan_fold_fields, !flat_map_added. reflexivity.
Qed.

Lemma in_matches (keywords : list str) (content sentence : str) :
  In sentence (split "."%char content) ->
  kept (strip sentence) = true ->
  any_keyword keywords (lower (strip sentence)) = true ->
  In (slice_to 250 (strip sentence)) (matches keywords content).
Proof.
  intros Hin Hk Ha. unfold matches, kept_sentences.
  apply in_map, filter_In. split; [|assumption].
  apply filter_In. split; [|assumption]. now apply in_map.
Qed.

Lemma matches_short (keywords : list str) (content : str) :
  entries_le 250 (matches keywords content).
Proof.
  unfold entries_le, matches. apply Forall_forall. intros x Hx.
  apply in_map_iff in Hx as [y [<- _]]. unfold slice_to.
  rewrite length_firstn. lia.
Qed.

Section WithSetOrder.

Variable set_list : list str -> list str.
Hypothesis set_list_ok : set_list_spec set_list.

Lemma set_list_nil : set_list [] = [].
Proof.
  destruct (set_list_ok []) as [_ H].
  destruct (set_list []) as [|x l]; [reflexivity|].
  destruct (proj1 (H x) (or_introl eq_refl)).
Qed.

Lemma set_list_single (x : str) : set_list [x] = [x].
Proof.
  destruct (set_list_ok [x]) as [N H].
  assert (E : forall y, In y (set_list [x]) -> y = x).
  { intros y Hy. apply H in Hy as [Hy|[]]. now symmetry. }
  assert (I : In x (set_list [x])) by (apply H; now left).
  destruct (set_list [x]) as [|a [|b l]].
  - destruct I.
  - now rewrite (E a (or_introl eq_refl)).
  - exfalso. inversion N as [|? ? Hn _]; subst. apply Hn.
    rewrite (E a (or_introl eq_refl)),
      <- (E b (or_intror (or_introl eq_refl))).
    now left.
Qed.

Lemma in_unique_max4 (l : list str) (x : str) :
  In x (unique_max4 set_list l) -> In x l.
Proof.
  unfold unique_max4. intros H. apply in_firstn in H.
  now apply (proj2 (set_list_ok l)).
Qed.

Lemma unique_max4_short (n : nat) (l : list str) :
  entries_le n l -> entries_le n (unique_max4 set_list l).
Proof.
  unfold entries_le. rewrite !Forall_forall. intros H x Hx.
  apply H. now apply in_unique_max4.
Qed.

Lemma unique_max4_single (x : str) : unique_max4 set_list [x] = [x].
Proof. unfold unique_max4. now rewrite set_list_single. Qed.

Lemma unique_max4_nil : unique_max4 set_list [] = [].
Proof. unfold unique_max4. now rewrite set_list_nil. Qed.

(** A list without repetition that already fits the cap comes back with
    the same entries, possibly in another order. *)
Lemma unique_max4_small (l : list str) :
  NoDup l -> length l <= 4 -> Permutation (unique_max4 set_list l) l.
Proof.
  intros N L. destruct (set_list_ok l) as [N' H].
  assert (P : Permutation (set_list l) l)
    by (apply NoDup_Permutation; assumption).
  unfold unique_max4. rewrite firstn_all2; [assumption|].
  now rewrite (Permutation_length P).
Qed.

End WithSetOrder.

(** [_keyword_analysis], field by field. *)
Lemma keyword_analysis_fields (set_list : list str -> list str)
  (content source_url : str) (d : ResearchData) :
  _keyword_analysis set_list content source_url d =
  mkData
    (unique_max4 set_list (key_points d ++ matches key_point_keywords content))
    (derive_recent (key_points d ++ matches key_point_keywords content))
    (unique_max4 set_list (challenges d ++ matches challenge_keywords content))
    (unique_max4 set_list
       (future_outlook d ++ matches future_keywords content))
    (if mem source_url (sources d) then sources d
     else sources d ++ [source_url]).
Proof.
  unfold _keyword_analysis. rewrite scan_content_fields; simpl.
  destruct (mem source_url (sources d)); reflexivity.
Qed.

Lemma keyword_loop_snoc (set_list : list str -> list str)
  (items : list ContentItem) (item : ContentItem) (d : ResearchData) :
  keyword_loop set_list (items ++ [item]) d =
  _keyword_analysis set_list (content item) (source item)
    (keyword_loop set_list items d).
Proof. unfold keyword_loop. now rewrite fold_left_app. Qed.

Lemma some_order_ok : set_list_spec some_order.
Proof.
  intros l. split; [apply NoDup_nodup | intros x; apply nodup_In].
Qed.

Lemma kept_iff (clean : str) :
  kept clean = true <-> 30 < length clean < 300.
Proof.
  unfold kept. rewrite andb_true_iff, !Nat.ltb_lt. reflexivity.
Qed.

(** C7: every sentence of the content whose stripped form has more than 30
    and fewer than 300 characters is appended, cut to 250 characters, to
    each of the three lists whose keywords occur in its lower-cased form;
    the sentence [This breakthrough in X was a challenge] ends up in both
    [key_points] and [challenges] of the record. *)
Theorem kept_sentence_appended (set_list : list str -> list str)
  (content source_url : str) (d : ResearchData) (sentence : str) :
  set_list_spec set_list ->
  In sentence (split "."%char content) ->
  30 < length (strip sentence) < 300 ->
  let clean := strip sentence in
  let scanned := scan_content content d in
  (any_keyword key_point_keywords (lower clean) = true ->
   In (slice_to 250 clean) (key_points scanned))
  /\ (any_keyword challenge_keywords (lower clean) = true ->
      In (slice_to 250 clean) (challenges scanned))
  /\ (any_keyword future_keywords (lower clean) = true ->
      In (slice_to 250 clean) (future_outlook scanned))
  /\ (let r := _keyword_analysis set_list breakthrough_sentence source_url
                  empty_data in
      key_points r = [breakthrough_sentence]
      /\ challenges r = [breakthrough_sentence]).
Proof.
  intros Hs Hin Hk clean scanned. apply kept_iff in Hk.
  subst scanned. rewrite scan_content_fields.
  cbn [key_points challenges future_outlook].
  repeat split.
  - intros H. apply in_or_app. right. now apply in_matches.
  - intros H. apply in_or_app. right. now apply in_matches.
  - intros H. apply in_or_app. right. now apply in_matches.
  - rewrite keyword_analysis_fields. cbn [key_points empty_data app].
    replace (matches key_point_keywords breakthrough_sentence)
      with [breakthrough_sentence] by (vm_compute; reflexivity).
    now apply unique_max4_single.
  - rewrite keyword_analysis_fields. cbn [challenges empty_data app].
    replace (matches challenge_keywords breakthrough_sentence)
      with [breakthrough_sentence] by (vm_compute; reflexivity).
    now apply unique_max4_single.
Qed.

Lemma kept_sentence_appended_witness :
  In breakthrough_sentence
     (key_points (scan_content breakthrough_sentence empty_data))
  /\ In breakthrough_sentence
       (challenges (scan_content breakthrough_sentence empty_data)).
Proof.
  destruct (kept_sentence_appended some_order breakthrough_sentence wiki_url
              empty_data breakthrough_sentence some_order_ok
              (or_introl eq_refl))
    as [K [C _]].
  - vm_compute. lia.
  - split; [apply K | apply C]; reflexivity.
Defined.

(** *** Recent developments *)

(** C3 (the claim as stated fails): in fallback analysis of a page without
    keywords the record has the placeholder of [key_points] in [key_points]
    and its own placeholder in [recent_developments]; in the analysis of a
    page that says one matching sentence twice, [recent_developments] holds
    it twice and [key_points] once. *)
Lemma recent_differs_from_returned_key_points :
  (let r := _fallback_analysis some_order [mkItem plain_page arxiv_url] in
   key_points r = [key_points_placeholder]
   /\ recent_developments r = [recent_placeholder]
   /\ recent_developments r <> derive_recent (key_points r))
  /\ (let r := keyword_loop some_order [mkItem repeated_page wiki_url]
                 empty_data in
      key_points r = [key_sentence]
      /\ recent_developments r = [key_sentence; key_sentence]
      /\ recent_developments r <> derive_recent (key_points r)).
Proof.
  split; cbv zeta; (split; [vm_compute; reflexivity|]);
    (split; [vm_compute; reflexivity|]); vm_compute; discriminate.
Qed.

(** C3 (amended): after the last item, [recent_developments] is the first
    two entries of the list made of the key points held before that item
    followed by the item's matching sentences, taken before that list is
    de-duplicated and capped, or the placeholder when that list is empty;
    the placeholders of fallback analysis do not change it. *)
Theorem recent_derived_before_dedup (set_list : list str -> list str)
  (items : list ContentItem) (item : ContentItem) (d : ResearchData) :
  recent_developments (keyword_loop set_list (items ++ [item]) d)
  = derive_recent (key_points (keyword_loop set_list items d)
                   ++ matches key_point_keywords (content item))
  /\ recent_developments (_fallback_analysis set_list (items ++ [item]))
     = derive_recent (key_points (keyword_loop set_list items empty_data)
                      ++ matches key_point_keywords (content item)).
Proof.
  unfold _fallback_analysis; cbn [recent_developments].
  rewrite !keyword_loop_snoc, !keyword_analysis_fields. split; reflexivity.
Qed.

(** *** Sources *)

Lemma keyword_loop_sources (set_list : list str -> list str)
  (items : list ContentItem) (d : ResearchData) :
  sources (keyword_loop set_list items d)
  = first_seen (sources d) (map source items).
Proof.
  unfold keyword_loop, first_seen.
  revert d; induction items as [|item items IH]; intros d; simpl;
    [reflexivity|].
  rewrite IH, keyword_analysis_fields. reflexivity.
Qed.

Lemma first_seen_extends (acc urls : list str) :
  exists extra, first_seen acc urls = acc ++ extra.
Proof.
  unfold first_seen. revert acc; induction urls as [|u urls IH]; intros acc;
    simpl.
  - exists []. now rewrite app_nil_r.
  - destruct (mem u acc); [apply IH|].
    destruct (IH (acc ++ [u])) as [extra E]. exists (u :: extra).
    now rewrite E, <- app_assoc.
Qed.

Lemma first_seen_NoDup (acc urls : list str) :
  NoDup acc -> NoDup (first_seen acc urls).
Proof.
  unfold first_seen. revert acc; induction urls as [|u urls IH]; intros acc N;
    simpl; [assumption|].
  destruct (mem u acc) eqn:E; apply IH; [assumption|].
  apply mem_false in E. apply NoDup_app; repeat split; try assumption.
  - constructor; [intros []|constructor].
  - intros x Hx [<-|[]]. contradiction.
Qed.

Lemma first_seen_In (acc urls : list str) (x : str) :
  In x (first_seen acc urls) <-> In x acc \/ In x urls.
Proof.
  unfold first_seen. revert acc; induction urls as [|u urls IH]; intros acc;
    simpl; [tauto|].
  rewrite IH. destruct (mem u acc) eqn:E.
  - apply mem_In in E. split; [tauto|]. intros [H|[<-|H]]; tauto.
  - rewrite in_app_iff; simpl. tauto.
Qed.

(** In the analysis that writes into the instance, each URL is listed once:
    those the instance held, then the new ones in first-seen order. *)
Lemma keyword_loop_sources_NoDup (set_list : list str -> list str)
  (items : list ContentItem) (d : ResearchData) :
  NoDup (sources d) -> NoDup (sources (keyword_loop set_list items d)).
Proof. rewrite keyword_loop_sources. apply first_seen_NoDup. Qed.


(** *** Every stage returns *)

Lemma search_web_total (w : World) (topic : str) (n : Z) :
  exists sources, _search_web w topic n = Ret sources /\ sources <> [].
Proof.
  unfold _search_web. destruct (ddgs_text w _ _) as [results|e];
    cbn [bind try_except].
  - destruct (search_loop n results []) as [|u l]; cbn [truthy];
      eexists; (split; [reflexivity | discriminate]).
  - eexists; split; [reflexivity | discriminate].
Qed.

Lemma extract_content_total (w : World) (url : str) :
  exists r, _extract_content w url = Ret r.
Proof.
  rewrite extract_content_eq. destruct (page_text w url) as [text|e]; eauto.
  destruct (clean_text text); eauto.
Qed.

Lemma extract_all_total (w : World) (urls : list str) :
  exists items, extract_all w urls = Ret items.
Proof.
  induction urls as [|url urls [items IH]]; simpl; [eauto|].
  destruct (extract_content_total w url) as [r ->]. simpl.
  rewrite IH. simpl. eauto.
Qed.

Lemma extract_all_nothing (w : World) (urls : list str) :
  (forall url, _extract_content w url = Ret None) ->
  extract_all w urls = Ret [].
Proof.
  intros H. induction urls as [|url urls IH]; simpl; [reflexivity|].
  rewrite H, IH. reflexivity.
Qed.

(** A failed request and an answer that does not parse both end in
    fallback analysis. *)
Lemma analyze_eq (set_list : list str -> list str) (w : World)
  (items : list ContentItem) (topic : str) :
  _analyze_with_openai set_list w items topic =
  match chat_completion w topic (combined_content items)
          (map source items) with
  | Ret message_content =>
      match json_loads w (clean_response message_content) with
      | Ret analysis => Ret (Parsed analysis)
      | Raise _ => Ret (Record_ (_fallback_analysis set_list items))
      end
  | Raise _ => Ret (Record_ (_fallback_analysis set_list items))
  end.
Proof.
  unfold _analyze_with_openai.
  destruct (chat_completion w _ _ _) as [m|[|]]; cbn [bind try_except];
    try reflexivity.
  destruct (json_loads w _) as [j|[|]]; reflexivity.
Qed.

Lemma analyze_total (set_list : list str -> list str) (w : World)
  (items : list ContentItem) (topic : str) :
  _analyze_with_openai set_list w items topic
  = Ret (Record_ (_fallback_analysis set_list items))
  \/ exists analysis,
       _analyze_with_openai set_list w items topic = Ret (Parsed analysis).
Proof.
  rewrite analyze_eq. destruct (chat_completion w _ _ _); [|now left].
  destruct (json_loads w _); [right; eauto | now left].
Qed.

(** [research_topic] by cases on what discovery and extraction return. *)
Lemma research_topic_eq (set_list : list str -> list str) (w : World)
  (self : agent) (topic : str) (n : Z) :
  research_topic set_list w self topic n =
  match _search_web w topic n with
  | Ret sources =>
      match extract_all w sources with
      | Ret [] => (Ret (Record_ (_get_mock_research_data topic)), self)
      | Ret all_content =>
          match self with
          | Basic d =>
              (Ret (Record_ (keyword_loop set_list all_content d)),
               Basic (keyword_loop set_list all_content d))
          | WithClient _ =>
              match _analyze_with_openai set_list w all_content topic with
              | Ret analysis => (Ret analysis, WithClient analysis)
              | Raise _ =>
                  (Ret (Record_ (_get_mock_research_data topic)), self)
              end
          end
      | Raise _ => (Ret (Record_ (_get_mock_research_data topic)), self)
      end
  | Raise _ => (Ret (Record_ (_get_mock_research_data topic)), self)
  end.
Proof.
  unfold research_topic.
  destruct (_search_web w topic n) as [[|u l]|e]; cbn [bind try_except];
    try reflexivity.
  cbn [truthy negb].
  destruct (extract_all w (u :: l)) as [[|i items]|e];
    cbn [bind try_except truthy negb]; try reflexivity.
  destruct self as [d|r]; [reflexivity|].
  destruct (_analyze_with_openai set_list w (i :: items) topic);
    reflexivity.
Qed.

(** C4 (the code against the claim): fallback analysis ends by storing the
    source of every item, repeated ones included, over the de-duplicated
    list that keyword analysis had built. Two items of one URL give that
    URL twice, where the analysis that writes into the instance lists it
    once; a call of [research_topic] reaches this when the search lists a
    page twice and the model cannot be reached. *)
Theorem fallback_sources_keep_repeats (set_list : list str -> list str)
  (items : list ContentItem) :
  sources (_fallback_analysis set_list items) = map source items
  /\ sources (_fallback_analysis set_list
                [mkItem rich_page wiki_url; mkItem plain_page wiki_url])
     = [wiki_url; wiki_url]
  /\ sources (keyword_loop set_list
                [mkItem rich_page wiki_url; mkItem plain_page wiki_url]
                empty_data)
     = [wiki_url]
  /\ exists d self',
      research_topic set_list twice_world (__init__ true) (lit "qubits") 3
      = (Ret (Record_ d), self')
      /\ sources d = [wiki_url; wiki_url].
Proof.
  split; [reflexivity|]. split; [reflexivity|].
  split; [rewrite keyword_loop_sources; reflexivity|].
  eexists; eexists. rewrite research_topic_eq.
  replace (_search_web twice_world (lit "qubits") 3)
    with (Ret (A := list str) [wiki_url; wiki_url])
    by (vm_compute; reflexivity).
  replace (extract_all twice_world [wiki_url; wiki_url])
    with (Ret [mkItem rich_page wiki_url; mkItem rich_page wiki_url])
    by (vm_compute; reflexivity).
  cbn [__init__]. rewrite analyze_eq. cbn [twice_world chat_completion].
  split; reflexivity.
Qed.

(** *** Shape of the records *)

Lemma mock_shape (topic : str) :
  all_nonempty (_get_mock_research_data topic)
  /\ text_le (length topic + 94) (_get_mock_research_data topic).
Proof.
  split.
  - unfold all_nonempty; cbn [_get_mock_research_data key_points
      recent_developments challenges future_outlook sources].
    repeat split; try discriminate.
  - unfold text_le, entries_le; cbn [_get_mock_research_data key_points
      recent_developments challenges future_outlook].
    repeat split; repeat (apply Forall_cons; [|try apply Forall_nil]);
      rewrite !length_app; cbn [length lit list_ascii_of_string]; lia.
Qed.

Lemma derive_recent_nonempty (l : list str) : derive_recent l <> [].
Proof. destruct l as [|a [|b l]]; discriminate. Qed.

Lemma derive_recent_short (l : list str) :
  entries_le 250 l -> entries_le 250 (derive_recent l).
Proof.
  unfold entries_le, derive_recent. intros H.
  destruct l as [|a l]; cbn [truthy].
  - apply Forall_cons; [|apply Forall_nil].
    cbn [recent_placeholder length lit list_ascii_of_string]. lia.
  - apply Forall_forall. intros x Hx. apply in_firstn in Hx.
    revert x Hx. now apply Forall_forall.
Qed.

Lemma entries_le_app (n : nat) (a b : list str) :
  entries_le n a -> entries_le n b -> entries_le n (a ++ b).
Proof. unfold entries_le. intros. now apply Forall_app. Qed.

Section Shapes.

Variable set_list : list str -> list str.
Hypothesis set_list_ok : set_list_spec set_list.

Lemma keyword_analysis_shape (content source_url : str) (d : ResearchData) :
  text_le 250 d ->
  let r := _keyword_analysis set_list content source_url d in
  text_le 250 r /\ recent_developments r <> [] /\ sources r <> [].
Proof.
  intros [K [R [C F]]]. rewrite keyword_analysis_fields.
  cbn [key_points recent_developments challenges future_outlook sources
       text_le].
  split; [|split].
  - unfold text_le; cbn [key_points recent_developments challenges
      future_outlook].
    repeat split;
      try apply unique_max4_short; try apply derive_recent_short;
      try assumption; apply entries_le_app; try assumption;
      apply matches_short.
  - apply derive_recent_nonempty.
  - destruct (mem source_url (sources d)) eqn:E.
    + apply mem_In in E. intros Z. rewrite Z in E. destruct E.
    + destruct (sources d); discriminate.
Qed.

Lemma keyword_loop_short (items : list ContentItem) (d : ResearchData) :
  text_le 250 d -> text_le 250 (keyword_loop set_list items d).
Proof.
  unfold keyword_loop. revert d; induction items as [|i items IH];
    intros d H; simpl; [assumption|].
  apply IH. now apply keyword_analysis_shape.
Qed.

Lemma keyword_loop_shape (items : list ContentItem) (d : ResearchData) :
  items <> [] -> text_le 250 d ->
  let r := keyword_loop set_list items d in
  text_le 250 r /\ recent_developments r <> [] /\ sources r <> [].
Proof.
  intros Hne H. destruct (exists_last Hne) as [items' [item ->]].
  cbv zeta. rewrite keyword_loop_snoc.
  apply keyword_analysis_shape. now apply keyword_loop_short.
Qed.

Lemma or_placeholder_shape (l : list str) (p : str) :
  entries_le 250 l -> length p <= 250 ->
  or_placeholder l p <> [] /\ entries_le 250 (or_placeholder l p).
Proof.
  intros H Hp. destruct l; cbn [or_placeholder truthy negb].
  - split; [discriminate | apply Forall_cons; [assumption | apply Forall_nil]].
  - split; [discriminate | assumption].
Qed.

Lemma empty_data_short : text_le 250 empty_data.
Proof. repeat split; apply Forall_nil. Qed.

Lemma fallback_shape (items : list ContentItem) :
  items <> [] ->
  all_nonempty (_fallback_analysis set_list items)
  /\ text_le 250 (_fallback_analysis set_list items).
Proof.
  intros Hne.
  destruct (keyword_loop_shape items empty_data Hne empty_data_short)
    as [[K [R [C F]]] [Rn _]].
  unfold _fallback_analysis, all_nonempty, text_le.
  cbn [key_points recent_developments challenges future_outlook sources].
  assert (Pk : length key_points_placeholder <= 250)
    by (cbn [key_points_placeholder length lit list_ascii_of_string]; lia).
  assert (Pc : length challenges_placeholder <= 250)
    by (cbn [challenges_placeholder length lit list_ascii_of_string]; lia).
  assert (Pf : length future_placeholder <= 250)
    by (cbn [future_placeholder length lit list_ascii_of_string]; lia).
  destruct (or_placeholder_shape _ _ K Pk) as [? ?].
  destruct (or_placeholder_shape _ _ C Pc) as [? ?].
  destruct (or_placeholder_shape _ _ F Pf) as [? ?].
  repeat split; try assumption.
  destruct items; [congruence | discriminate].
Qed.

End Shapes.

(** C1 (the claim as stated fails): with no network and a topic of 200
    characters the mock record holds entries of more than 250 characters;
    and on a fresh instance without client, a page without keywords gives a
    record whose [key_points], [challenges] and [future_outlook] are
    empty. *)
Lemma record_breaks_bounds :
  (exists d entry,
      research_topic some_order offline (__init__ false) long_topic 3
      = (Ret (Record_ d), __init__ false)
      /\ In entry (challenges d) /\ 250 < length entry)
  /\ (exists d,
        fst (research_topic some_order plain_world (__init__ false)
               (lit "foxes") 3) = Ret (Record_ d)
        /\ key_points d = [] /\ challenges d = []
        /\ future_outlook d = []).
Proof.
  split.
  - eexists; eexists. split; [reflexivity|].
    split; [right; left; reflexivity | vm_compute; lia].
  - eexists. split; [vm_compute; reflexivity|]. repeat split.
Qed.

(** C1 (amended): [research_topic] always returns, and an instance whose
    stored entries fit 250 characters (a fresh one does) keeps such
    entries. A record that comes from keyword or fallback analysis has
    non-empty [recent_developments] and [sources] and text entries of at
    most 250 characters, and all five fields non-empty after fallback
    analysis; the mock record has all five fields non-empty and text
    entries of at most [len(topic) + 94] characters. An answer of the model
    that parses is returned as it is. *)
Theorem research_record_shape (set_list : list str -> list str) (w : World)
  (self : agent) (topic : str) (num_sources : Z) :
  set_list_spec set_list -> agent_short self ->
  exists r self',
    research_topic set_list w self topic num_sources = (Ret r, self')
    /\ agent_short self'
    /\ match r with
       | Parsed _ => client_available self = true
       | Record_ d =>
           recent_developments d <> [] /\ sources d <> []
           /\ ((d = _get_mock_research_data topic /\ all_nonempty d
                /\ text_le (length topic + 94) d)
               \/ (text_le 250 d
                   /\ (client_available self = true -> all_nonempty d)))
       end.
Proof.
  intros Hs Hself. rewrite research_topic_eq.
  assert (M : recent_developments (_get_mock_research_data topic) <> []
              /\ sources (_get_mock_research_data topic) <> []
              /\ ((_get_mock_research_data topic
                   = _get_mock_research_data topic
                   /\ all_nonempty (_get_mock_research_data topic)
                   /\ text_le (length topic + 94)
                              (_get_mock_research_data topic))
                  \/ (text_le 250 (_get_mock_research_data topic)
                      /\ (client_available self = true ->
                          all_nonempty (_get_mock_research_data topic))))).
  { destruct (mock_shape topic) as [N T].
    split; [apply N|]. split; [apply N|]. left. auto. }
  destruct (search_web_total w topic num_sources) as [l [-> _]].
  destruct (extract_all_total w l) as [[|i items] ->].
  - exists (Record_ (_get_mock_research_data topic)), self. auto.
  - destruct self as [d|r0].
    + destruct (keyword_loop_shape set_list Hs (i :: items) d) as [T [R S]];
        [discriminate | exact Hself |].
      eexists; eexists. split; [reflexivity|]. split; [exact T|].
      split; [exact R|]. split; [exact S|]. right. split; [exact T|].
      discriminate.
    + destruct (analyze_total set_list w (i :: items) topic) as [->|[j ->]].
      * destruct (fallback_shape set_list Hs (i :: items)) as [N T];
          [discriminate|].
        eexists; eexists. split; [reflexivity|]. split; [exact I|].
        split; [apply N|]. split; [apply N|]. right. auto.
      * eexists; eexists. split; [reflexivity|]. split; [exact I|].
        reflexivity.
Qed.

Lemma research_record_shape_witness :
  exists r self',
    research_topic some_order rich_world (__init__ false) (lit "qubits") 3
    = (Ret r, self')
    /\ agent_short self'.
Proof.
  destruct (research_record_shape some_order rich_world (__init__ false)
              (lit "qubits") 3 some_order_ok empty_data_short)
    as [r [self' [E [A _]]]].
  exists r, self'. split; assumption.
Defined.

(** *** Successive calls on one instance *)

(** A call on an instance without client either returns the mock record and
    leaves the instance alone, or returns the dictionary of the instance,
    whose [sources] are those held before the call followed by new ones. *)
Lemma basic_call_extends (set_list : list str -> list str) (w : World)
  (d : ResearchData) (topic : str) (n : Z) :
  research_topic set_list w (Basic d) topic n
  = (Ret (Record_ (_get_mock_research_data topic)), Basic d)
  \/ exists d' extra,
       research_topic set_list w (Basic d) topic n
       = (Ret (Record_ d'), Basic d')
       /\ sources d' = sources d ++ extra.
Proof.
  rewrite research_topic_eq.
  destruct (search_web_total w topic n) as [l [-> _]].
  destruct (extract_all_total w l) as [[|i items] ->]; [now left|].
  right. destruct (first_seen_extends (sources d) (map source (i :: items)))
    as [extra E].
  eexists; exists extra. split; [reflexivity|].
  now rewrite keyword_loop_sources.
Qed.

Lemma single_page_call (set_list : list str -> list str) (w : World)
  (d : ResearchData) (topic page url : str) (n : Z) :
  _search_web w topic n = Ret [url] ->
  extract_all w [url] = Ret [mkItem page url] ->
  research_topic set_list w (Basic d) topic n
  = (Ret (Record_ (_keyword_analysis set_list page url d)),
     Basic (_keyword_analysis set_list page url d)).
Proof.
  intros S X. rewrite research_topic_eq, S, X. reflexivity.
Qed.

(** C10: on one instance without client the calls are not independent.
    The dictionary of the instance is never reset: a call returns it with
    the [sources] it held before the call in front. After a first call on a
    page that has a sentence for each category, a second call on a page
    without keywords returns the key point, the challenge, the outlook and
    the URL of the first call, where a fresh instance returns none of
    them. *)
Theorem second_call_carries_first (set_list : list str -> list str) :
  set_list_spec set_list ->
  (forall w d topic n,
      research_topic set_list w (Basic d) topic n
      = (Ret (Record_ (_get_mock_research_data topic)), Basic d)
      \/ exists d' extra,
           research_topic set_list w (Basic d) topic n
           = (Ret (Record_ d'), Basic d')
           /\ sources d' = sources d ++ extra)
  /\ exists d1 d2 d,
      research_topic set_list rich_world (__init__ false) (lit "qubits") 3
      = (Ret (Record_ d1), Basic d1)
      /\ research_topic set_list plain_world (Basic d1) (lit "foxes") 3
         = (Ret (Record_ d2), Basic d2)
      /\ research_topic set_list plain_world (__init__ false) (lit "foxes") 3
         = (Ret (Record_ d), Basic d)
      /\ d2 = mkData [key_sentence] [key_sentence] [challenge_sentence]
                     [future_sentence] [wiki_url; arxiv_url]
      /\ d = mkData [] [recent_placeholder] [] [] [arxiv_url].
Proof.
  intros Hs. split; [intros; apply basic_call_extends|].
  assert (R : _keyword_analysis set_list rich_page wiki_url empty_data
              = mkData [key_sentence] [key_sentence] [challenge_sentence]
                       [future_sentence] [wiki_url]).
  { rewrite keyword_analysis_fields.
    cbn [empty_data key_points challenges future_outlook sources app].
    replace (matches key_point_keywords rich_page) with [key_sentence]
      by (vm_compute; reflexivity).
    replace (matches challenge_keywords rich_page) with [challenge_sentence]
      by (vm_compute; reflexivity).
    replace (matches future_keywords rich_page) with [future_sentence]
      by (vm_compute; reflexivity).
    now rewrite !(unique_max4_single set_list Hs). }
  assert (Pk : matches key_point_keywords plain_page = [])
    by (vm_compute; reflexivity).
  assert (Pc : matches challenge_keywords plain_page = [])
    by (vm_compute; reflexivity).
  assert (Pf : matches future_keywords plain_page = [])
    by (vm_compute; reflexivity).
  eexists; eexists; eexists.
  split; [apply (single_page_call set_list rich_world empty_data
                   (lit "qubits") rich_page wiki_url 3);
          vm_compute; reflexivity|].
  split; [apply (single_page_call set_list plain_world _
                   (lit "foxes") plain_page arxiv_url 3);
          vm_compute; reflexivity|].
  split; [apply (single_page_call set_list plain_world empty_data
                   (lit "foxes") plain_page arxiv_url 3);
          vm_compute; reflexivity|].
  split.
  - rewrite R, keyword_analysis_fields, Pk, Pc, Pf.
    cbn [key_points challenges future_outlook sources app].
    rewrite !(unique_max4_single set_list Hs).
    reflexivity.
  - rewrite keyword_analysis_fields, Pk, Pc, Pf.
    cbn [empty_data key_points challenges future_outlook sources app].
    rewrite !(unique_max4_nil set_list Hs).
    reflexivity.
Qed.

Lemma second_call_carries_first_witness :
  exists d1 d2,
    research_topic some_order rich_world (__init__ false) (lit "qubits") 3
    = (Ret (Record_ d1), Basic d1)
    /\ research_topic some_order plain_world (Basic d1) (lit "foxes") 3
       = (Ret (Record_ d2), Basic d2)
    /\ key_points d2 = [key_sentence].
Proof.
  destruct (second_call_carries_first some_order some_order_ok)
    as [_ [d1 [d2 [d [E1 [E2 [_ [E _]]]]]]]].
  exists d1, d2. split; [exact E1|]. split; [exact E2|].
  rewrite E. reflexivity.
Defined.

End Properties.

(** ** Further properties of the agent *)

Module Coverage.
Import Py Agent Spec PyFacts Properties Rest.

(** *** Display of URLs *)

(** X1: the printed form of a URL keeps its first 50 characters; a URL of
    at most 50 characters is printed as it is, a longer one as its first
    50 characters and three dots, 53 characters in all (so a URL of 51 or
    52 characters is printed longer than it is). *)
Theorem shorten_url_length (url : str) :
  length (_shorten_url url) = (if 50 <? length url then 53 else length url)
  /\ firstn 50 (_shorten_url url) = firstn 50 url
  /\ length (_shorten_url url) <= Nat.max (length url) 53.
Proof.
  unfold _shorten_url, slice_to.
  destruct (Nat.ltb_spec 50 (length url)) as [H|H].
  - assert (L : length (firstn 50 url) = 50)
      by (rewrite length_firstn; lia).
    rewrite length_app, L. split; [reflexivity|]. split; [|simpl; lia].
    rewrite firstn_app, L, firstn_firstn. simpl. apply app_nil_r.
  - split; [reflexivity|]. split; [reflexivity | lia].
Qed.

(** *** The allow-list *)

Lemma lower_char_idem (c : ascii) : lower_char (lower_char c) = lower_char c.
Proof. destruct c as [[] [] [] [] [] [] [] []]; reflexivity. Qed.

Lemma lower_idem (s : str) : lower (lower s) = lower s.
Proof.
  unfold lower. rewrite map_map. apply map_ext. apply lower_char_idem.
Qed.

Lemma reliable_in_context (before url after : str) :
  _is_reliable_source url = true ->
  _is_reliable_source (before ++ url ++ after) = true.
Proof.
  intros H. apply reliable_iff in H as [domain [Hd Hc]].
  now apply reliable_if_host_listed with (domain := domain).
Qed.

(** X2: the verdict of the allow-list does not depend on letter case (a URL
    and its lower-cased form get the same verdict), and an accepted URL
    stays accepted whatever text is put before or after it. *)
Theorem reliable_case_and_context (before url after : str) :
  _is_reliable_source (lower url) = _is_reliable_source url
  /\ (_is_reliable_source url = true ->
      _is_reliable_source (before ++ url ++ after) = true).
Proof.
  split; [|apply reliable_in_context].
  unfold _is_reliable_source. now rewrite lower_idem.
Qed.

Lemma reliable_case_and_context_witness :
  _is_reliable_source (lit "http://x/?u=" ++ wiki_url ++ lit "#top") = true.
Proof.
  apply (proj2 (reliable_case_and_context (lit "http://x/?u=") wiki_url
                  (lit "#top"))).
  reflexivity.
Defined.

Lemma replace_no_source (a b : ascii) (s : str) :
  a <> b -> ~ In a (replace a b s).
Proof.
  intros Hab H. unfold replace in H. apply in_map_iff in H as [c [E _]].
  destruct (Ascii.eqb_spec c a); congruence.
Qed.

Lemma mock_sources_reliable (topic : str) :
  Forall reliable (_get_mock_sources topic).
Proof.
  unfold _get_mock_sources, reliable.
  apply Forall_cons; [|apply Forall_cons; [|apply Forall_cons;
                                              [|apply Forall_nil]]].
  - change (lit "https://en.wikipedia.org/wiki/")
      with (lit "https://" ++ lit "en.wikipedia.org" ++ lit "/wiki/").
    rewrite <- !app_assoc. apply wikipedia_host_accepted.
  - reflexivity.
  - reflexivity.
Qed.

(** X3: for every topic the three mock URLs pass the allow-list check, and
    the first one is the 30-character encyclopedia prefix followed by as
    many characters as the topic has, none of them a space. *)
Theorem mock_sources_shape (topic : str) :
  Forall reliable (_get_mock_sources topic)
  /\ length (_get_mock_sources topic) = 3
  /\ exists page,
      hd [] (_get_mock_sources topic)
      = lit "https://en.wikipedia.org/wiki/" ++ page
      /\ length page = length topic
      /\ ~ In " "%char page.
Proof.
  split; [apply mock_sources_reliable|]. split; [reflexivity|].
  exists (replace " "%char "_"%char topic).
  split; [reflexivity|]. split.
  - unfold replace. apply length_map.
  - apply replace_no_source. discriminate.
Qed.

(** *** Discovery *)

Lemma search_web_eq (w : World) (topic : str) (n : Z) :
  _search_web w topic n =
  match ddgs_text w (topic ++ lit " technology research 2024") (n + 2)%Z with
  | Ret results =>
      match filter _is_reliable_source results with
      | [] => Ret (_get_mock_sources topic)
      | accepted => Ret (firstn (Z.to_nat (Z.max 1 n)) accepted)
      end
  | Raise _ => Ret (_get_mock_sources topic)
  end.
Proof.
  unfold _search_web.
  destruct (ddgs_text w _ _) as [results|e]; cbn [bind try_except];
    [|reflexivity].
  rewrite search_loop_spec; simpl length; simpl app. rewrite Z.sub_0_r.
  destruct (filter _is_reliable_source results) as [|u accepted] eqn:E.
  - now rewrite firstn_nil.
  - now rewrite truthy_firstn by lia.
Qed.

Lemma search_web_found (w : World) (topic : str) (num_sources : Z) :
  exists found,
    _search_web w topic num_sources = Ret found
    /\ found <> []
    /\ Forall reliable found
    /\ (Z.of_nat (length found) <= Z.max 3 num_sources)%Z.
Proof.
  rewrite search_web_eq.
  assert (M : exists found,
             Ret (_get_mock_sources topic) = Ret found
             /\ found <> [] /\ Forall reliable found
             /\ (Z.of_nat (length found) <= Z.max 3 num_sources)%Z).
  { exists (_get_mock_sources topic). split; [reflexivity|].
    split; [discriminate|]. split; [apply mock_sources_reliable|].
    simpl length. lia. }
  destruct (ddgs_text w _ _) as [results|e]; [|exact M].
  destruct (filter _is_reliable_source results) as [|u accepted] eqn:E;
    [exact M|].
  eexists. split; [reflexivity|]. split; [|split].
  - destruct (Z.to_nat (Z.max 1 num_sources)) eqn:K; [lia | discriminate].
  - apply Forall_forall. intros x Hx. apply in_firstn in Hx.
    rewrite <- E in Hx. now apply filter_In in Hx.
  - rewrite length_firstn. lia.
Qed.

(** X4: whatever the search service does, discovery returns a list that is
    not empty, holds only URLs that pass the allow-list check, and has at
    most [max(3, num_sources)] entries. *)
Theorem discovery_sound (w : World) (topic : str) (num_sources : Z) :
  exists found,
    _search_web w topic num_sources = Ret found
    /\ found <> []
    /\ Forall reliable found
    /\ (Z.of_nat (length found) <= Z.max 3 num_sources)%Z.
Proof. apply search_web_found. Qed.

(** *** The clean-up of extracted text *)

Lemma single_spaced_cons (c : ascii) (r : str) :
  single_spaced (c :: r) = true <->
  (isspace c = true -> c = " "%char /\ starts_with_space r = false)
  /\ single_spaced r = true.
Proof.
  cbn [single_spaced]. rewrite !andb_true_iff, orb_true_iff.
  destruct (isspace c) eqn:E; cbn [negb andb].
  - rewrite negb_true_iff, Ascii.eqb_eq. split.
    + intros [[[H|H] A] S]; [discriminate|]. auto.
    + intros [H S]. destruct (H eq_refl). auto.
  - split; [intros [_ S]; split; [discriminate | exact S]|].
    intros [_ S]. auto.
Qed.

Lemma single_spaced_app (a b : str) :
  single_spaced (a ++ b) = true ->
  single_spaced a = true /\ single_spaced b = true.
Proof.
  induction a as [|c a IH]; [intros H; split; [reflexivity | exact H]|].
  cbn [app]. rewrite !single_spaced_cons. intros [H S].
  destruct (IH S) as [Sa Sb]. split; [|exact Sb]. split; [|exact Sa].
  intros E. destruct (H E) as [-> N]. split; [reflexivity|].
  destruct a; [reflexivity | exact N].
Qed.

Lemma sub_ws_from_spaced (b : bool) (s : str) :
  single_spaced (sub_ws_from b s) = true
  /\ (b = true -> starts_with_space (sub_ws_from b s) = false).
Proof.
  revert b; induction s as [|c r IH]; intros b; cbn [sub_ws_from].
  - split; reflexivity.
  - destruct (isspace c) eqn:E.
    + destruct b.
      * apply IH.
      * destruct (IH true) as [S H]. split; [|discriminate].
        apply single_spaced_cons. split; [|exact S].
        intros _. split; [reflexivity | now apply H].
    + destruct (IH false) as [S _]. split.
      * apply single_spaced_cons. split; [|exact S]. congruence.
      * intros _. exact E.
Qed.

Lemma sub_ws_from_snoc (b : bool) (x : str) (z : ascii) :
  isspace z = false -> sub_ws_from b (x ++ [z]) = sub_ws_from b x ++ [z].
Proof.
  intros Hz. revert b; induction x as [|c x IH]; intros b;
    cbn [app sub_ws_from].
  - now rewrite Hz.
  - destruct (isspace c); [destruct b|]; cbn [app]; now rewrite IH.
Qed.

(** A text that is not empty and has no whitespace at either end. *)
Lemma bounded_ends (s : str) :
  s <> [] -> tight s ->
  exists a, isspace a = false /\
    ((exists r, s = a :: r))
  /\ exists z x, isspace z = false /\ s = x ++ [z].
Proof.
  intros Hne [H1 H2]. destruct s as [|a r]; [congruence|].
  exists a. split; [now apply (H1 a r)|]. split; [eauto|].
  destruct (rev (a :: r)) as [|z x] eqn:E.
  - apply (f_equal (@length _)) in E. rewrite length_rev in E. discriminate.
  - exists z, (rev x). split; [now apply (H2 z x)|].
    rewrite <- (rev_involutive (a :: r)), E. reflexivity.
Qed.

Lemma tight_intro (a z : ascii) (r x s : str) :
  isspace a = false -> isspace z = false -> s = a :: r -> s = x ++ [z] ->
  s <> [] /\ tight s.
Proof.
  intros Ha Hz E1 E2. split; [subst s; discriminate|]. split.
  - intros c r' E. rewrite E1 in E. now inversion E; subst.
  - intros c r' E. rewrite E2, rev_app_distr in E. now inversion E; subst.
Qed.

Lemma sub_ws_tight (s : str) :
  s <> [] -> tight s -> sub_ws s <> [] /\ tight (sub_ws s).
Proof.
  intros Hne Ht.
  destruct (bounded_ends s Hne Ht) as [a [Ha [[r E1] [z [x [Hz E2]]]]]].
  apply (tight_intro a z (sub_ws_from false r) (sub_ws x)); try assumption.
  - rewrite E1. unfold sub_ws. cbn [sub_ws_from]. now rewrite Ha.
  - rewrite E2. unfold sub_ws. now apply sub_ws_from_snoc.
Qed.

Lemma join_tight (sep : str) (l : list str) :
  l <> [] -> Forall (fun x => x <> [] /\ tight x) l ->
  join sep l <> [] /\ tight (join sep l).
Proof.
  induction l as [|x l IH]; [congruence|]. intros _ H.
  inversion H as [|? ? [Hx Tx] Hl]; subst.
  destruct l as [|y l]; [cbn [join]; auto|].
  destruct (IH ltac:(discriminate) Hl) as [Hj Tj].
  destruct (bounded_ends x Hx Tx) as [a [Ha [[r E1] _]]].
  destruct (bounded_ends _ Hj Tj) as [_ [_ [_ [z [u [Hz E2]]]]]].
  change (join sep (x :: y :: l)) with (x ++ sep ++ join sep (y :: l)).
  apply (tight_intro a z (r ++ sep ++ join sep (y :: l)) (x ++ sep ++ u));
    try assumption.
  - now rewrite E1.
  - rewrite E2, <- !app_assoc. reflexivity.
Qed.

Lemma chunks_tight (lines : list str) :
  Forall (fun x => x <> [] /\ tight x)
    (filter truthy (flat_map (fun line => map strip (split_2sp line)) lines)).
Proof.
  apply Forall_forall. intros x Hx. apply filter_In in Hx as [Hx T].
  split; [destruct x; [discriminate | discriminate]|].
  apply in_flat_map in Hx as [line [_ Hx]].
  apply in_map_iff in Hx as [y [<- _]]. apply tight_strip.
Qed.

Lemma tight_nil : tight [].
Proof. split; intros c r H; destruct r; discriminate. Qed.

Lemma clean_text_ends (text : str) :
  tight (clean_text text).
Proof.
  unfold clean_text.
  destruct (filter truthy _) as [|x l] eqn:E.
  - cbn. apply tight_nil.
  - apply sub_ws_tight; apply join_tight; try discriminate;
      rewrite <- E; apply chunks_tight.
Qed.

(** X5: the cleaned text of any page holds no whitespace but single
    spaces between words: every whitespace character of it is a space, no
    two follow each other, and it neither starts nor ends with one. Line
    breaks, tabs and runs of blanks of the page are all gone. *)
Theorem clean_text_normal (text : str) :
  single_spaced (clean_text text) = true /\ tight (clean_text text).
Proof.
  split; [|apply clean_text_ends].
  unfold clean_text, sub_ws. apply sub_ws_from_spaced.
Qed.

Lemma linebreak_is_space (c : ascii) :
  is_linebreak c || (code c =? 13) = true -> isspace c = true.
Proof.
  destruct c as [[] [] [] [] [] [] [] []]; vm_compute; intros H;
    (reflexivity || discriminate H).
Qed.

Lemma single_spaced_char (s : str) (c : ascii) :
  single_spaced s = true -> In c s -> isspace c = true -> c = " "%char.
Proof.
  induction s as [|a s IH]; [intros _ []|].
  rewrite single_spaced_cons. intros [H S] [->|Hin] E.
  - now destruct (H E).
  - now apply IH.
Qed.

Lemma single_spaced_no_break (s : str) (c : ascii) :
  single_spaced s = true -> In c s ->
  is_linebreak c = false /\ (code c =? 13) = false.
Proof.
  intros S Hin.
  destruct (is_linebreak c || (code c =? 13)) eqn:E.
  - assert (W := linebreak_is_space c E).
    rewrite (single_spaced_char s c S Hin W) in E. discriminate E.
  - now apply orb_false_iff in E.
Qed.

Lemma splitlines_from_plain (cur s : str) :
  (forall c, In c s -> is_linebreak c = false /\ (code c =? 13) = false) ->
  splitlines_from cur s =
  match rev cur ++ s with [] => [] | line => [line] end.
Proof.
  revert cur; induction s as [|c r IH]; intros cur H; cbn [splitlines_from].
  - rewrite app_nil_r. destruct cur as [|a cur]; [reflexivity|].
    cbn [rev]. destruct (rev cur); reflexivity.
  - destruct (H c (or_introl eq_refl)) as [-> ->].
    rewrite IH by (intros x Hx; apply H; now right).
    cbn [rev]. now rewrite <- app_assoc.
Qed.

Lemma split_2sp_plain (s : str) :
  single_spaced s = true -> split_2sp s = [s].
Proof.
  induction s as [|c r IH]; [reflexivity|].
  intros S. apply single_spaced_cons in S as [H S].
  destruct r as [|c2 r2]; [reflexivity|].
  change (split_2sp (c :: c2 :: r2))
    with (if Ascii.eqb c " "%char && Ascii.eqb c2 " "%char
          then [] :: split_2sp r2
          else cons_head c (split_2sp (c2 :: r2))).
  rewrite (IH S).
  destruct (Ascii.eqb c " "%char && Ascii.eqb c2 " "%char) eqn:E;
    [|reflexivity].
  apply andb_true_iff in E as [E1 E2].
  apply Ascii.eqb_eq in E1, E2. subst c c2.
  destruct (H eq_refl) as [_ N]. discriminate N.
Qed.

Lemma sub_ws_from_fix (b : bool) (s : str) :
  single_spaced s = true -> (b = true -> starts_with_space s = false) ->
  sub_ws_from b s = s.
Proof.
  revert b; induction s as [|c r IH]; intros b S Hb; [reflexivity|].
  apply single_spaced_cons in S as [H S]. cbn [sub_ws_from].
  destruct (isspace c) eqn:E.
  - destruct (H eq_refl) as [-> N].
    destruct b; [specialize (Hb eq_refl); cbn in Hb; discriminate Hb|].
    now rewrite (IH true S (fun _ => N)).
  - now rewrite (IH false S ltac:(discriminate)).
Qed.

Lemma clean_text_fix (s : str) :
  single_spaced s = true -> tight s -> clean_text s = s.
Proof.
  intros S T. destruct s as [|a r]; [reflexivity|].
  unfold clean_text, splitlines.
  rewrite splitlines_from_plain
    by (intros c Hc; now apply (single_spaced_no_break (a :: r))).
  cbn [rev app map flat_map].
  rewrite (strip_tight _ T), (split_2sp_plain _ S).
  cbn [map app]. rewrite (strip_tight _ T). cbn [filter truthy join].
  unfold sub_ws. apply sub_ws_from_fix; [exact S | discriminate].
Qed.

(** X6: cleaning is idempotent: the cleaned text of a page is left as it
    is by a second clean-up. *)
Theorem clean_text_idempotent (text : str) :
  clean_text (clean_text text) = clean_text text.
Proof.
  apply clean_text_fix; [|apply clean_text_ends].
  unfold clean_text, sub_ws. apply sub_ws_from_spaced.
Qed.

(** *** What the extractor returns *)

Lemma lstrip_suffix (s : str) : exists w, s = w ++ lstrip s /\ blank w.
Proof.
  induction s as [|c s [w [E B]]]; [exists []; split; [reflexivity|constructor]|].
  cbn [lstrip]. destruct (isspace c) eqn:Ec.
  - exists (c :: w). split; [cbn; now rewrite <- E | now constructor].
  - exists []. split; [reflexivity | constructor].
Qed.

Lemma rstrip_prefix (s : str) : exists w, s = rstrip s ++ w /\ blank w.
Proof.
  destruct (lstrip_suffix (rev s)) as [w [E B]].
  exists (rev w). split; [|now apply blank_rev].
  unfold rstrip. rewrite <- rev_app_distr, <- E. symmetry.
  apply rev_involutive.
Qed.

Lemma blank_single_spaced (w : str) :
  blank w -> single_spaced w = true -> length w <= 1.
Proof.
  intros B S. destruct w as [|a [|b w]]; cbn [length]; try lia.
  inversion B as [|? ? Ha B']; subst. inversion B' as [|? ? Hb _]; subst.
  apply single_spaced_cons in S as [H _].
  destruct (H Ha) as [_ N]. cbn in N. congruence.
Qed.

(** The text the extractor makes of a cleaned text that is not empty. *)
Lemma cut_text (cleaned : str) :
  cleaned <> [] -> tight cleaned -> single_spaced cleaned = true ->
  let text := strip (slice_to 2500 cleaned) in
  exists rest,
    cleaned = text ++ rest /\ text <> [] /\ single_spaced text = true
    /\ (length cleaned <= 2500 -> rest = [])
    /\ (2500 <= length cleaned -> 2499 <= length text <= 2500).
Proof.
  intros Hne T S text.
  destruct (bounded_ends cleaned Hne T) as [a [Ha [[r E] _]]].
  assert (F : slice_to 2500 cleaned = a :: firstn 2499 r)
    by (rewrite E; reflexivity).
  assert (X : text = rstrip (slice_to 2500 cleaned)).
  { unfold text, strip. rewrite F. cbn [lstrip]. now rewrite Ha. }
  destruct (rstrip_prefix (slice_to 2500 cleaned)) as [w [Ew Bw]].
  rewrite <- X in Ew.
  assert (C : cleaned = text ++ w ++ skipn 2500 cleaned).
  { rewrite app_assoc, <- Ew. unfold slice_to. symmetry.
    apply firstn_skipn. }
  assert (Sw : single_spaced text = true /\ single_spaced w = true).
  { rewrite C in S. apply single_spaced_app in S as [St S].
    apply single_spaced_app in S as [Sw _]. auto. }
  assert (Lw := blank_single_spaced w Bw (proj2 Sw)).
  assert (Lf : length (slice_to 2500 cleaned) = Nat.min 2500 (length cleaned))
    by apply length_firstn.
  rewrite Ew, length_app in Lf.
  exists (w ++ skipn 2500 cleaned). split; [exact C|].
  split; [|split; [apply Sw|split]].
  - rewrite X, F, rstrip_cons. destruct (rstrip (firstn 2499 r));
      [rewrite Ha|]; discriminate.
  - intros L.
    assert (K : length text = length cleaned).
    { unfold text, slice_to. rewrite firstn_all2 by exact L.
      now rewrite strip_tight. }
    apply (f_equal (@length _)) in C. rewrite length_app, K in C.
    destruct (w ++ skipn 2500 cleaned); [reflexivity|].
    cbn [length] in C. lia.
  - intros L. lia.
Qed.

(** X7: a text that the extractor returns is never empty; it is an
    initial part of the cleaned text of the page, so it has single spaces
    only and no whitespace at either end; it is the whole cleaned text when
    that has at most 2500 characters, and has 2499 or 2500 characters when
    the cleaned text has 2500 or more. *)
Theorem extract_content_text (w : World) (url text : str) :
  _extract_content w url = Ret (Some text) ->
  exists raw rest,
    page_text w url = Ret raw
    /\ clean_text raw = text ++ rest
    /\ text <> [] /\ tight text /\ single_spaced text = true
    /\ (length (clean_text raw) <= 2500 -> rest = [])
    /\ (2500 <= length (clean_text raw) -> 2499 <= length text <= 2500).
Proof.
  rewrite extract_content_eq.
  destruct (page_text w url) as [raw|e]; [|discriminate].
  destruct (clean_text raw) as [|c cleaned] eqn:E; [discriminate|].
  intros H. injection H as <-.
  assert (N : single_spaced (c :: cleaned) = true)
    by (rewrite <- E; unfold clean_text, sub_ws; apply sub_ws_from_spaced).
  assert (T : tight (c :: cleaned)) by (rewrite <- E; apply clean_text_ends).
  destruct (cut_text (c :: cleaned) ltac:(discriminate) T N)
    as [rest [C [Hne [S [Hw Hc]]]]].
  exists raw, rest. rewrite E. split; [reflexivity|]. split; [exact C|].
  split; [exact Hne|]. split; [apply tight_strip|]. auto.
Qed.

Lemma extract_content_text_witness :
  exists rest, clean_text rich_page = rich_page ++ rest /\ rich_page <> [].
Proof.
  destruct (extract_content_text rich_world wiki_url rich_page)
    as [raw [rest [P [C [N _]]]]].
  - vm_compute. reflexivity.
  - injection P as <-. exists rest. split; assumption.
Defined.

Lemma extract_some_nonempty (w : World) (url text : str) :
  _extract_content w url = Ret (Some text) -> text <> [].
Proof.
  rewrite extract_content_eq.
  destruct (page_text w url) as [raw|e]; [|discriminate].
  destruct (clean_text raw) as [|c cleaned] eqn:E; [discriminate|].
  intros H. injection H as <-.
  assert (N : single_spaced (c :: cleaned) = true)
    by (rewrite <- E; unfold clean_text, sub_ws; apply sub_ws_from_spaced).
  assert (T : tight (c :: cleaned)) by (rewrite <- E; apply clean_text_ends).
  destruct (cut_text (c :: cleaned) ltac:(discriminate) T N)
    as [rest [_ [Hne _]]].
  exact Hne.
Qed.

Lemma extract_all_kept (w : World) (urls : list str) :
  exists items,
    extract_all w urls = Ret items
    /\ map source items = filter (has_content w) urls
    /\ Forall (fun item =>
                 _extract_content w (source item) = Ret (Some (content item)))
              items
    /\ length items <= length urls.
Proof.
  induction urls as [|url urls [items [E [M [F L]]]]].
  - exists []. repeat split; [constructor | cbn; lia].
  - cbn [extract_all filter]. unfold has_content at 1.
    destruct (extract_content_total w url) as [r Er]. rewrite Er, E.
    cbn [bind]. destruct r as [text|].
    + assert (Hne := extract_some_nonempty w url text Er).
      destruct text as [|c text]; [congruence|]. cbn [truthy].
      eexists. split; [reflexivity|]. cbn [map source]. rewrite M.
      split; [reflexivity|]. split; [|cbn [length]; lia].
      apply Forall_cons; [exact Er | exact F].
    + exists items. split; [reflexivity|]. split; [exact M|].
      split; [exact F | cbn [length]; lia].
Qed.

(** X8: the extraction loop keeps one item for each URL at which the
    extractor finds content, in the order of the URLs, and drops the
    others; the content of an item is what the extractor returned for its
    URL. The test [if content] never drops a returned text. *)
Theorem extract_all_items (w : World) (urls : list str) :
  exists items,
    extract_all w urls = Ret items
    /\ map source items = filter (has_content w) urls
    /\ Forall (fun item =>
                 _extract_content w (source item) = Ret (Some (content item)))
              items
    /\ length items <= length urls.
Proof. apply extract_all_kept. Qed.

(** *** What keyword analysis stores *)

Lemma split_no_sep (sep : ascii) (s piece : str) :
  In piece (split sep s) -> ~ In sep piece.
Proof.
  revert piece; induction s as [|c r IH]; intros piece; cbn [split].
  - intros [<-|[]] [].
  - destruct (Ascii.eqb_spec c sep) as [->|Hc].
    + intros [<-|H]; [intros [] | now apply IH].
    + destruct (split sep r) as [|w ws] eqn:E; cbn [cons_head].
      * intros [<-|[]] [H|[]]. congruence.
      * intros [<-|H].
        -- intros [H|H]; [congruence|]. apply (IH w); [now left | exact H].
        -- apply IH. now right.
Qed.

Lemma in_lstrip (s : str) (c : ascii) : In c (lstrip s) -> In c s.
Proof.
  destruct (lstrip_suffix s) as [w [E _]]. intros H. rewrite E.
  apply in_or_app. now right.
Qed.

Lemma in_strip (s : str) (c : ascii) : In c (strip s) -> In c s.
Proof.
  unfold strip. intros H. apply in_lstrip.
  destruct (rstrip_prefix (lstrip s)) as [w [E _]]. rewrite E.
  apply in_or_app. now left.
Qed.

(** What the loop can append to a category. *)
Lemma in_matches_inv (keywords : list str) (content x : str) :
  In x (matches keywords content) ->
  sentence_entry x
  /\ exists sentence,
      In sentence (split "."%char content)
      /\ x = slice_to 250 (strip sentence)
      /\ 30 < length (strip sentence) < 300
      /\ any_keyword keywords (lower (strip sentence)) = true.
Proof.
  unfold matches, kept_sentences. intros H.
  apply in_map_iff in H as [clean [<- H]].
  apply filter_In in H as [H A]. apply filter_In in H as [H K].
  apply in_map_iff in H as [sentence [<- H]].
  apply kept_iff in K. split.
  - split; [unfold slice_to; rewrite length_firstn; lia|].
    intros P. apply in_firstn, in_strip in P.
    now apply (split_no_sep _ _ _ H).
  - exists sentence. auto.
Qed.

Lemma entries_scan (cat : category) (content : str) (d : ResearchData) :
  entries cat (scan_content content d)
  = entries cat d ++ matches (keywords_of cat) content.
Proof. rewrite scan_content_fields. now destruct cat. Qed.

Lemma entries_keyword_analysis (set_list : list str -> list str)
  (cat : category) (content source_url : str) (d : ResearchData) :
  entries cat (_keyword_analysis set_list content source_url d)
  = unique_max4 set_list
      (entries cat d ++ matches (keywords_of cat) content).
Proof. rewrite keyword_analysis_fields. now destruct cat. Qed.

(** X9: the sentence loop only ever appends entries of more than 30 and at
    most 250 characters that hold no period: each new entry of a category
    is the stripped form, cut to 250 characters, of a piece of the content
    between two periods that has more than 30 and fewer than 300
    characters and a keyword of the category in its lower-cased form.
    Entries held before stay in front, in their order. *)
Theorem scan_appends_sentences (cat : category) (content : str)
  (d : ResearchData) :
  exists added,
    entries cat (scan_content content d) = entries cat d ++ added
    /\ Forall sentence_entry added
    /\ Forall (fun x =>
                 exists sentence,
                   In sentence (split "."%char content)
                   /\ x = slice_to 250 (strip sentence)
                   /\ 30 < length (strip sentence) < 300
                   /\ any_keyword (keywords_of cat) (lower (strip sentence))
                      = true)
              added.
Proof.
  exists (matches (keywords_of cat) content).
  split; [apply entries_scan|].
  split; apply Forall_forall; intros x Hx;
    now apply in_matches_inv in Hx.
Qed.

Section SetOrderFacts.

Variable set_list : list str -> list str.
Hypothesis set_list_ok : set_list_spec set_list.

Lemma set_list_distinct (l : list str) :
  length (set_list l) = distinct l.
Proof.
  unfold distinct. apply Permutation_length.
  destruct (set_list_ok l) as [N H], (some_order_ok l) as [N' H'].
  apply NoDup_Permutation; try assumption.
  intros x. now rewrite H, H'.
Qed.

Lemma NoDup_firstn {A : Type} (n : nat) (l : list A) :
  NoDup l -> NoDup (firstn n l).
Proof.
  intros N. rewrite <- (firstn_skipn n l) in N.
  now apply NoDup_app_remove_r in N.
Qed.

Lemma unique_max4_facts (l : list str) :
  NoDup (unique_max4 set_list l)
  /\ length (unique_max4 set_list l) = Nat.min 4 (distinct l)
  /\ incl (unique_max4 set_list l) l
  /\ (distinct l <= 4 -> incl l (unique_max4 set_list l)).
Proof.
  unfold unique_max4. destruct (set_list_ok l) as [N H].
  split; [now apply NoDup_firstn|].
  split; [now rewrite length_firstn, set_list_distinct|].
  split.
  - intros x Hx. apply in_firstn in Hx. now apply H.
  - intros L x Hx. rewrite firstn_all2 by now rewrite set_list_distinct.
    now apply H.
Qed.

(** X10: after keyword analysis each of the three lists holds no entry
    twice and has as many entries as the list held before, extended by the
    matching sentences, has different ones, but at most 4; every entry
    comes from that extended list, and none of it is lost when it has at
    most 4 different entries. *)
Theorem keyword_analysis_caps (cat : category) (content source_url : str)
  (d : ResearchData) :
  let r := _keyword_analysis set_list content source_url d in
  let seen := entries cat d ++ matches (keywords_of cat) content in
  NoDup (entries cat r)
  /\ length (entries cat r) = Nat.min 4 (distinct seen)
  /\ incl (entries cat r) seen
  /\ (distinct seen <= 4 -> incl seen (entries cat r)).
Proof.
  cbv zeta. rewrite entries_keyword_analysis. apply unique_max4_facts.
Qed.

End SetOrderFacts.

Lemma keyword_analysis_caps_witness :
  incl (key_points empty_data ++ matches key_point_keywords rich_page)
       (key_points (_keyword_analysis some_order rich_page wiki_url
                      empty_data)).
Proof.
  destruct (keyword_analysis_caps some_order some_order_ok KeyPoint rich_page
              wiki_url empty_data) as [_ [_ [_ H]]].
  apply H. vm_compute. lia.
Defined.

(** *** Recent developments and sources of one analysis *)

Lemma derive_recent_length (l : list str) :
  1 <= length (derive_recent l) <= 2.
Proof. destruct l as [|a [|b l]]; cbn; lia. Qed.

Lemma derive_recent_incl (l : list str) (x : str) :
  In x (derive_recent l) -> In x l \/ x = recent_placeholder.
Proof.
  unfold derive_recent. destruct l as [|a l]; cbn [truthy].
  - intros [<-|[]]. now right.
  - intros H. left. now apply in_firstn in H.
Qed.

Lemma sources_keyword_analysis (set_list : list str -> list str)
  (content source_url : str) (d : ResearchData) :
  sources (_keyword_analysis set_list content source_url d)
  = if mem source_url (sources d) then sources d
    else sources d ++ [source_url].
Proof. now rewrite keyword_analysis_fields. Qed.

(** X11: one keyword analysis leaves one or two recent developments, each
    of them the placeholder or an entry of the key points held before
    extended by the matching sentences; it lists the URL of the page in
    [sources], appending it when it is new and changing nothing when it is
    already there, so a list without repetition stays one. *)
Theorem keyword_analysis_recent_sources (set_list : list str -> list str)
  (content source_url : str) (d : ResearchData) :
  let r := _keyword_analysis set_list content source_url d in
  1 <= length (recent_developments r) <= 2
  /\ (forall x, In x (recent_developments r) ->
        In x (key_points d ++ matches key_point_keywords content)
        \/ x = recent_placeholder)
  /\ In source_url (sources r)
  /\ (In source_url (sources d) -> sources r = sources d)
  /\ (~ In source_url (sources d) -> sources r = sources d ++ [source_url])
  /\ (NoDup (sources d) -> NoDup (sources r)).
Proof.
  cbv zeta. rewrite sources_keyword_analysis, keyword_analysis_fields.
  cbn [recent_developments].
  split; [apply derive_recent_length|].
  split; [intros x; apply derive_recent_incl|].
  destruct (mem source_url (sources d)) eqn:E.
  - apply mem_In in E. repeat split; auto. intros N. contradiction.
  - apply mem_false in E. split; [apply in_or_app; right; now left|].
    split; [intros H; contradiction|]. split; [reflexivity|].
    intros N. apply NoDup_app; repeat split; try assumption.
    + constructor; [intros []|constructor].
    + intros x Hx [<-|[]]. contradiction.
Qed.

Lemma keyword_analysis_recent_sources_witness :
  sources (_keyword_analysis some_order plain_page wiki_url
             (_keyword_analysis some_order rich_page wiki_url empty_data))
  = sources (_keyword_analysis some_order rich_page wiki_url empty_data).
Proof.
  destruct (keyword_analysis_recent_sources some_order plain_page wiki_url
              (_keyword_analysis some_order rich_page wiki_url empty_data))
    as [_ [_ [_ [H _]]]].
  apply H. left. reflexivity.
Defined.

(** *** Invariants of an instance without client *)

Lemma sources_step_NoDup (set_list : list str -> list str)
  (content source_url : str) (d : ResearchData) :
  NoDup (sources d) ->
  NoDup (sources (_keyword_analysis set_list content source_url d)).
Proof.
  intros N. change (source_url) with (source (mkItem content source_url)).
  change (_keyword_analysis set_list content
            (source (mkItem content source_url)) d)
    with (keyword_loop set_list [mkItem content source_url] d).
  now apply keyword_loop_sources_NoDup.
Qed.

Lemma empty_data_inv : instance_inv empty_data.
Proof.
  split; [constructor|]. split; [constructor|]. split; [cbn; lia|].
  intros cat. destruct cat; cbn; repeat split; try constructor; lia.
Qed.

Section InstanceInvariant.

Variable set_list : list str -> list str.
Hypothesis set_list_ok : set_list_spec set_list.

Lemma keyword_analysis_inv (content source_url : str) (d : ResearchData) :
  instance_inv d -> reliable source_url ->
  instance_inv (_keyword_analysis set_list content source_url d).
Proof.
  intros [N [R [L C]]] Hu.
  split; [now apply sources_step_NoDup|]. split; [|split].
  - rewrite sources_keyword_analysis.
    destruct (mem source_url (sources d)); [exact R|].
    apply Forall_app. split; [exact R|]. now constructor.
  - rewrite keyword_analysis_fields. cbn [recent_developments].
    apply derive_recent_length.
  - intros cat. rewrite entries_keyword_analysis.
    destruct (unique_max4_facts set_list set_list_ok
                (entries cat d ++ matches (keywords_of cat) content))
      as [Nd [Ln [In_ _]]].
    split; [exact Nd|]. split; [rewrite Ln; lia|].
    apply Forall_forall. intros x Hx. apply In_ in Hx.
    apply in_app_or in Hx as [Hx|Hx].
    + destruct (C cat) as [_ [_ F]]. revert x Hx. now apply Forall_forall.
    + now apply in_matches_inv in Hx.
Qed.

Lemma keyword_loop_inv (items : list ContentItem) (d : ResearchData) :
  instance_inv d -> Forall reliable (map source items) ->
  instance_inv (keyword_loop set_list items d).
Proof.
  unfold keyword_loop. revert d; induction items as [|i items IH];
    intros d Hd Hr; cbn [fold_left]; [exact Hd|].
  inversion Hr; subst. apply IH; [|assumption].
  now apply keyword_analysis_inv.
Qed.

Lemma research_topic_inv (w : World) (d : ResearchData) (topic : str)
  (n : Z) :
  instance_inv d ->
  exists d',
    snd (research_topic set_list w (Basic d) topic n) = Basic d'
    /\ instance_inv d'.
Proof.
  intros Hd. rewrite research_topic_eq.
  destruct (search_web_found w topic n) as [found [-> [_ [R _]]]].
  destruct (extract_all_kept w found) as [items [-> [M _]]].
  destruct items as [|i items]; [exists d; auto|].
  eexists. split; [reflexivity|]. apply keyword_loop_inv; [exact Hd|].
  rewrite M. apply Forall_forall. intros u Hu.
  apply filter_In in Hu as [Hu _]. revert u Hu. now apply Forall_forall.
Qed.

Lemma run_calls_inv (calls : list Call) (d : ResearchData) :
  instance_inv d ->
  exists d', run_calls set_list calls (Basic d) = Basic d' /\ instance_inv d'.
Proof.
  unfold run_calls. revert d; induction calls as [|c calls IH]; intros d Hd;
    cbn [fold_left]; [eauto|].
  destruct (research_topic_inv (call_world c) d (call_topic c)
              (call_count c) Hd) as [d1 [-> H1]].
  now apply IH.
Qed.

(** X12: whatever calls an instance without client has served, it holds a
    dictionary in which [sources] lists no URL twice and only URLs that
    pass the allow-list check, [recent_developments] has at most two
    entries, and each of [key_points], [challenges] and [future_outlook]
    has at most 4 entries, none twice, each of more than 30 and at most
    250 characters and without a period. *)
Theorem instance_invariant (calls : list Call) :
  exists d,
    run_calls set_list calls (__init__ false) = Basic d /\ instance_inv d.
Proof. apply run_calls_inv, empty_data_inv. Qed.

End InstanceInvariant.

Lemma instance_invariant_witness :
  exists d,
    run_calls some_order
      [mkCall rich_world (lit "qubits") 3; mkCall plain_world (lit "foxes") 3]
      (__init__ false) = Basic d
    /\ NoDup (sources d).
Proof.
  destruct (instance_invariant some_order some_order_ok
              [mkCall rich_world (lit "qubits") 3;
               mkCall plain_world (lit "foxes") 3]) as [d [E [N _]]].
  exists d. split; assumption.
Defined.

(** *** Sources over several pages *)

Lemma first_seen_fresh (acc urls : list str) :
  NoDup (acc ++ urls) -> first_seen acc urls = acc ++ urls.
Proof.
  unfold first_seen. revert acc; induction urls as [|u urls IH]; intros acc N;
    cbn [fold_left]; [now rewrite app_nil_r|].
  assert (E : mem u acc = false).
  { apply mem_false. intros H. apply NoDup_remove_2 in N. apply N.
    apply in_or_app. now left. }
  rewrite E, IH; rewrite <- app_assoc; [reflexivity | exact N].
Qed.

Lemma first_seen_absorb (acc urls : list str) :
  (forall u, In u urls -> In u acc) -> first_seen acc urls = acc.
Proof.
  unfold first_seen. induction urls as [|u urls IH]; intros H;
    cbn [fold_left]; [reflexivity|].
  assert (E : mem u acc = true) by (apply mem_In, H; now left).
  rewrite E. apply IH. intros x Hx. apply H. now right.
Qed.

(** X13: over a list of pages the analysis that writes into the instance
    lists in [sources] exactly the URLs held before and those of the
    pages; with no repeated URL among pages and instance it appends the
    URLs of the pages as they are; and running it again on the same pages
    adds nothing. *)
Theorem keyword_loop_sources_set (set_list : list str -> list str)
  (items : list ContentItem) (d : ResearchData) :
  (forall u, In u (sources (keyword_loop set_list items d))
             <-> In u (sources d) \/ In u (map source items))
  /\ (NoDup (sources d ++ map source items) ->
      sources (keyword_loop set_list items d)
      = sources d ++ map source items)
  /\ sources (keyword_loop set_list items (keyword_loop set_list items d))
     = sources (keyword_loop set_list items d).
Proof.
  rewrite !keyword_loop_sources. split; [intros u; apply first_seen_In|].
  split; [apply first_seen_fresh|].
  apply first_seen_absorb. intros u Hu. apply first_seen_In. now right.
Qed.

Lemma keyword_loop_sources_set_witness :
  sources (keyword_loop some_order
             [mkItem rich_page wiki_url; mkItem plain_page arxiv_url]
             empty_data)
  = [wiki_url; arxiv_url].
Proof.
  destruct (keyword_loop_sources_set some_order
              [mkItem rich_page wiki_url; mkItem plain_page arxiv_url]
              empty_data) as [_ [H _]].
  apply H. vm_compute.
  constructor; [intros [H'|[]]; discriminate H'|].
  constructor; [intros []|constructor].
Defined.

(** X14: fallback analysis and the analysis of a fresh instance agree on
    pages whose URLs differ: they give the same [sources] and the same
    [recent_developments], and the same entries in every category in which
    a sentence was found; fallback analysis puts one placeholder in the
    others. *)
Theorem fallback_agrees_with_direct (set_list : list str -> list str)
  (items : list ContentItem) :
  NoDup (map source items) ->
  let f := _fallback_analysis set_list items in
  let k := keyword_loop set_list items empty_data in
  sources f = sources k
  /\ recent_developments f = recent_developments k
  /\ forall cat,
      (entries cat k <> [] -> entries cat f = entries cat k)
      /\ (entries cat k = [] -> length (entries cat f) = 1).
Proof.
  intros N f k. split; [|split].
  - unfold f, k. rewrite keyword_loop_sources.
    cbn [_fallback_analysis sources empty_data].
    symmetry. now apply first_seen_fresh.
  - reflexivity.
  - intros cat. unfold f, _fallback_analysis. fold k.
    destruct cat; cbn [entries key_points challenges future_outlook];
      unfold or_placeholder;
      match goal with
      | |- context [truthy ?l] => destruct l
      end; cbn [truthy negb]; split; intros H;
      (reflexivity || congruence || discriminate).
Qed.

Lemma fallback_agrees_with_direct_witness :
  sources (_fallback_analysis some_order [mkItem rich_page wiki_url])
  = sources (keyword_loop some_order [mkItem rich_page wiki_url] empty_data).
Proof.
  destruct (fallback_agrees_with_direct some_order
              [mkItem rich_page wiki_url]) as [H _].
  - constructor; [intros []|constructor].
  - exact H.
Defined.

(** *** One call and the instance *)


(** X16: on an instance without client a call returns the mock record,
    and leaves the instance alone, exactly when the extractor finds
    content at none of the discovered URLs; otherwise it returns the
    dictionary of the instance, whose [sources] are those held before
    followed by the discovered URLs with content that are new, each once
    and in the order of discovery. *)
Theorem call_sources (set_list : list str -> list str) (w : World)
  (d0 : ResearchData) (topic : str) (num_sources : Z) :
  exists found,
    _search_web w topic num_sources = Ret found
    /\ match filter (has_content w) found with
       | [] =>
           research_topic set_list w (Basic d0) topic num_sources
           = (Ret (Record_ (_get_mock_research_data topic)), Basic d0)
       | with_content =>
           exists d,
             research_topic set_list w (Basic d0) topic num_sources
             = (Ret (Record_ d), Basic d)
             /\ sources d = first_seen (sources d0) with_content
       end.
Proof.
  destruct (search_web_total w topic num_sources) as [found [E _]].
  exists found. split; [exact E|].
  rewrite research_topic_eq, E.
  destruct (extract_all_kept w found) as [items [-> [M _]]].
  rewrite <- M. destruct items as [|i items]; [reflexivity|].
  cbn [map]. eexists. split; [reflexivity|].
  now rewrite keyword_loop_sources.
Qed.

(** *** Fences around the model's answer *)

Lemma strip_decompose (s : str) :
  exists a b, s = a ++ strip s ++ b /\ blank a /\ blank b.
Proof.
  destruct (lstrip_suffix s) as [a [Ea Ba]].
  destruct (rstrip_prefix (lstrip s)) as [b [Eb Bb]].
  exists a, b. split; [|split; assumption].
  unfold strip. now rewrite <- Eb.
Qed.

(** The stripped form of a text with the shape of a JSON text. *)
Lemma shaped_core (t : str) :
  json_shaped t = true ->
  exists c r z x,
    strip t = c :: r /\ strip t = x ++ [z]
    /\ json_first c = true /\ json_last z = true
    /\ isspace c = false /\ isspace z = false.
Proof.
  unfold json_shaped. intros H.
  destruct (strip t) as [|c r] eqn:E; [discriminate|].
  destruct (rev (c :: r)) as [|z x] eqn:Ez; [discriminate|].
  apply andb_true_iff in H as [Hc Hz].
  exists c, r, z, (rev x). split; [reflexivity|].
  split; [rewrite <- (rev_involutive (c :: r)), Ez; reflexivity|].
  split; [exact Hc|]. split; [exact Hz|].
  destruct (tight_strip t) as [T1 T2]. rewrite E in T1, T2.
  split; [now apply (T1 c r) | now apply (T2 z x)].
Qed.

Lemma startswith_backtick (c : ascii) (r p : str) :
  c <> "`"%char -> startswith (c :: r) ("`"%char :: p) = false.
Proof.
  intros H. apply startswith_head. exact H.
Qed.

Lemma clean_opening_only (w1 t : str) :
  json_shaped t = true -> blank w1 ->
  clean_response (lit "```json" ++ w1 ++ t) = strip t.
Proof.
  intros Ht B1.
  destruct (shaped_core t Ht) as [c [r [z [x [E1 [E2 [Hc [Hz [Sc Sz]]]]]]]]].
  destruct (strip_decompose t) as [a [b [Et [Ba Bb]]]].
  assert (T : tight (lit "```json" ++ w1 ++ a ++ strip t)).
  { split.
    - intros c' r' H. inversion H. reflexivity.
    - rewrite E2, !app_assoc, rev_app_distr. intros c' r' H.
      inversion H; subst. exact Sz. }
  unfold clean_response.
  replace (strip (lit "```json" ++ w1 ++ t))
    with (lit "```json" ++ w1 ++ a ++ strip t).
  2:{ rewrite Et at 2.
      replace (lit "```json" ++ w1 ++ a ++ strip t ++ b)
        with ([] ++ (lit "```json" ++ w1 ++ a ++ strip t) ++ b)
        by (cbn [app]; now rewrite <- !app_assoc).
      rewrite strip_blank_around by (assumption || constructor).
      symmetry. now apply strip_tight. }
  replace (startswith (lit "```json" ++ w1 ++ a ++ strip t) (lit "```json"))
    with true by (symmetry; apply startswith_iff; eexists; reflexivity).
  replace (slice_from 7 (lit "```json" ++ w1 ++ a ++ strip t))
    with (w1 ++ a ++ strip t) by reflexivity.
  replace (endswith (w1 ++ a ++ strip t) (lit "```")) with false.
  2:{ unfold endswith. rewrite E2, !app_assoc, rev_app_distr. cbn [rev app].
      symmetry. apply startswith_backtick.
      now apply backtick_not_json_last. }
  replace (w1 ++ a ++ strip t) with ((w1 ++ a) ++ strip t ++ [])
    by now rewrite app_nil_r, app_assoc.
  rewrite strip_blank_around; [apply strip_idem | | constructor].
  unfold blank. apply Forall_app. now split.
Qed.

Lemma clean_closing_only (w2 t : str) :
  json_shaped t = true -> blank w2 ->
  clean_response (t ++ w2 ++ lit "```") = strip t.
Proof.
  intros Ht B2.
  destruct (shaped_core t Ht) as [c [r [z [x [E1 [E2 [Hc [Hz [Sc Sz]]]]]]]]].
  destruct (strip_decompose t) as [a [b [Et [Ba Bb]]]].
  assert (T : tight (strip t ++ b ++ w2 ++ lit "```")).
  { split.
    - rewrite E1. intros c' r' H. inversion H; subst. exact Sc.
    - rewrite !app_assoc, rev_app_distr. intros c' r' H.
      inversion H. reflexivity. }
  unfold clean_response.
  replace (strip (t ++ w2 ++ lit "```"))
    with (strip t ++ b ++ w2 ++ lit "```").
  2:{ rewrite Et at 2.
      replace ((a ++ strip t ++ b) ++ w2 ++ lit "```")
        with (a ++ (strip t ++ b ++ w2 ++ lit "```") ++ [])
        by (rewrite app_nil_r; now rewrite <- !app_assoc).
      rewrite strip_blank_around by (assumption || constructor).
      symmetry. now apply strip_tight. }
  replace (startswith (strip t ++ b ++ w2 ++ lit "```") (lit "```json"))
    with false.
  2:{ rewrite E1. cbn [app]. symmetry.
      change (lit "```json") with ("`"%char :: lit "``json").
      apply startswith_backtick. now apply backtick_not_json_first. }
  replace (strip t ++ b ++ w2 ++ lit "```")
    with ((strip t ++ b ++ w2) ++ lit "```") by now rewrite <- !app_assoc.
  rewrite endswith_app.
  change 3 with (length (lit "```")). rewrite slice_to_neg_app.
  replace (strip t ++ b ++ w2) with ([] ++ strip t ++ (b ++ w2))
    by reflexivity.
  rewrite strip_blank_around; [apply strip_idem | constructor |].
  unfold blank. apply Forall_app. now split.
Qed.

(** X17: the two fence markers are removed independently of each other:
    an answer with the opening [```json] marker only, or with the closing
    marker only, around a text with the shape of a JSON text is cleaned to
    that text without its outer whitespace. *)
Theorem one_sided_fence (t w1 w2 : str) :
  json_shaped t = true -> blank w1 -> blank w2 ->
  clean_response (lit "```json" ++ w1 ++ t) = strip t
  /\ clean_response (t ++ w2 ++ lit "```") = strip t.
Proof.
  intros Ht B1 B2. split;
    [now apply clean_opening_only | now apply clean_closing_only].
Qed.

Lemma one_sided_fence_witness :
  clean_response (lit "```json" ++ nl ++ lit "[1, 2]") = lit "[1, 2]"
  /\ clean_response (lit "[1, 2]" ++ nl ++ lit "```") = lit "[1, 2]".
Proof.
  assert (B : blank nl) by (repeat constructor).
  exact (one_sided_fence (lit "[1, 2]") nl nl eq_refl B B).
Defined.

Lemma rstrip_cons_nonspace (c : ascii) (r : str) :
  isspace c = false -> rstrip (c :: r) = c :: rstrip r.
Proof.
  intros H. rewrite rstrip_cons. destruct (rstrip r); [now rewrite H|].
  reflexivity.
Qed.

Lemma clean_untagged (w1 w2 t : str) :
  blank w1 -> w1 <> [] ->
  clean_response (fenced_untagged w1 w2 t)
  = lit "```" ++ rstrip (w1 ++ t ++ w2).
Proof.
  intros B1 N1. unfold clean_response.
  assert (T : tight (fenced_untagged w1 w2 t)).
  { split; unfold fenced_untagged.
    - intros c r H. inversion H. reflexivity.
    - rewrite !rev_app_distr. intros c r H. inversion H. reflexivity. }
  rewrite (strip_tight _ T).
  replace (startswith (fenced_untagged w1 w2 t) (lit "```json")) with false.
  2:{ destruct w1 as [|s w1]; [congruence|]. inversion B1; subst.
      unfold fenced_untagged. cbn [lit list_ascii_of_string app startswith].
      rewrite !Ascii.eqb_refl. cbn [andb].
      destruct (Ascii.eqb_spec "j"%char s) as [<-|_]; [discriminate|].
      reflexivity. }
  replace (fenced_untagged w1 w2 t)
    with ((lit "```" ++ w1 ++ t ++ w2) ++ lit "```")
    by (unfold fenced_untagged; now rewrite <- !app_assoc).
  rewrite endswith_app.
  change 3 with (length (lit "```")). rewrite slice_to_neg_app.
  unfold strip. cbn [lit list_ascii_of_string app lstrip].
  replace (isspace "`"%char) with false by reflexivity.
  now rewrite !rstrip_cons_nonspace by reflexivity.
Qed.

(** X18: a fence that names no language is not unwrapped: when the answer
    is a text between a bare [```] marker followed by whitespace and a
    closing marker, the cleaned text still starts with the marker; with a
    parser that rejects every text starting with a backtick, as a JSON
    parser does, the analysis falls back to keyword analysis whatever the
    text is. *)
Theorem untagged_fence_falls_back (set_list : list str -> list str)
  (w : World) (t w1 w2 : str) (items : list ContentItem) (topic : str) :
  blank w1 -> w1 <> [] ->
  (forall s, startswith s (lit "`") = true ->
             exists e, json_loads w s = Raise e) ->
  startswith (clean_response (fenced_untagged w1 w2 t)) (lit "```") = true
  /\ _analyze_with_openai set_list (with_answer w (fenced_untagged w1 w2 t))
       items topic
     = Ret (Record_ (_fallback_analysis set_list items)).
Proof.
  intros B1 N1 Hj. rewrite analyze_with_answer, clean_untagged by assumption.
  split; [apply startswith_iff; eexists; reflexivity|].
  destruct (Hj (lit "```" ++ rstrip (w1 ++ t ++ w2)) eq_refl) as [e ->].
  reflexivity.
Qed.

Lemma untagged_fence_falls_back_witness :
  _analyze_with_openai some_order
    (with_answer offline (fenced_untagged nl nl (lit "[1, 2]")))
    [mkItem rich_page wiki_url] (lit "qubits")
  = Ret (Record_ (_fallback_analysis some_order [mkItem rich_page wiki_url])).
Proof.
  assert (B : blank nl) by (repeat constructor).
  refine (proj2 (untagged_fence_falls_back some_order offline (lit "[1, 2]")
                   nl nl [mkItem rich_page wiki_url] (lit "qubits") B _ _)).
  - discriminate.
  - intros s _. exists JSONDecodeError. reflexivity.
Defined.

(** *** The request to the model *)

Lemma combined_content_shown (items items' : list ContentItem) :
  map shown items = map shown items' ->
  combined_content items = combined_content items'
  /\ map source items = map source items'.
Proof.
  intros H. unfold combined_content.
  assert (E : forall f : str * str -> str,
             map (fun i => f (shown i)) items
             = map (fun i => f (shown i)) items').
  { intros f. rewrite <- !(map_map shown f). now rewrite H. }
  split.
  - f_equal.
    exact (E (fun p => lit "Source: " ++ fst p ++ nl ++ lit "Content: "
                       ++ snd p)).
  - exact (E fst).
Qed.

(** X19: the model is asked about the URL and the first 800 characters of
    each page only: two lists of pages that agree on these give the same
    request, and when the answer parses the same result. *)
Theorem request_reads_800 (set_list : list str -> list str) (w : World)
  (items items' : list ContentItem) (topic : str) :
  map shown items = map shown items' ->
  combined_content items = combined_content items'
  /\ chat_completion w topic (combined_content items) (map source items)
     = chat_completion w topic (combined_content items') (map source items')
  /\ forall analysis,
      _analyze_with_openai set_list w items topic = Ret (Parsed analysis) ->
      _analyze_with_openai set_list w items' topic = Ret (Parsed analysis).
Proof.
  intros H. destruct (combined_content_shown items items' H) as [C S].
  split; [exact C|]. split; [now rewrite C, S|].
  intros analysis. rewrite !analyze_eq, C, S.
  destruct (chat_completion w _ _ _) as [m|e]; [|discriminate].
  destruct (json_loads w _) as [j|e]; [auto | discriminate].
Qed.

Lemma request_reads_800_witness :
  combined_content [mkItem (repeat "a"%char 800 ++ lit "tail") wiki_url]
  = combined_content [mkItem (repeat "a"%char 800) wiki_url].
Proof.
  refine (proj1 (request_reads_800 some_order offline
                   [mkItem (repeat "a"%char 800 ++ lit "tail") wiki_url]
                   [mkItem (repeat "a"%char 800) wiki_url] [] _)).
  vm_compute. reflexivity.
Defined.

(** *** The mock record *)

(** X20: the mock record has nine text entries, each of which holds the
    topic as it was given and 62 to 94 characters of fixed text around it,
    and its sources do not depend on the topic. *)
Theorem mock_record_mentions_topic (topic other : str) :
  length (text_entries (_get_mock_research_data topic)) = 9
  /\ Forall (fun entry =>
               contains topic entry = true
               /\ length topic + 62 <= length entry <= length topic + 94)
            (text_entries (_get_mock_research_data topic))
  /\ sources (_get_mock_research_data topic)
     = sources (_get_mock_research_data other).
Proof.
  split; [reflexivity|]. split; [|reflexivity].
  unfold text_entries, _get_mock_research_data.
  cbn [key_points recent_developments challenges future_outlook app].
  repeat (apply Forall_cons; [split|]); try apply Forall_nil;
    try (apply contains_iff;
         first [ eexists; eexists; reflexivity
               | exists []; eexists; reflexivity ]);
    rewrite !length_app; cbn [length lit list_ascii_of_string]; lia.
Qed.

End Coverage.

(** ** The fallback tiers *)

Module Tiers.
Import Py Agent Spec PyFacts Properties Rest Coverage.

(** C9: [research_topic] never raises, and every failure is caught where
    it occurs and degrades to the next tier. Discovery returns the accepted
    URLs and, when the search raises or accepts nothing, the mock URLs;
    extraction returns the cut text of the page and [None] when the fetch
    raises or the cleaned text is empty; analysis with the model returns
    the parsed answer and, when the request raises or the answer does not
    parse, the record of keyword fallback analysis. The pipeline keeps the
    pages with content, in order; with none it returns the mock record and
    leaves the instance alone, with some it returns keyword analysis on an
    instance without client and the analysis with the model on one with a
    client. When no extraction gives content the call for
    [quantum computing] returns the mock record, whose [sources] are the
    three fixed mock URLs. *)
Theorem research_never_raises (set_list : list str -> list str) (w : World)
  (self : agent) (topic : str) (num_sources : Z) :
  _search_web w topic num_sources
  = match ddgs_text w (topic ++ lit " technology research 2024")
            (num_sources + 2)%Z with
    | Ret results =>
        match filter _is_reliable_source results with
        | [] => Ret (_get_mock_sources topic)
        | accepted => Ret (firstn (Z.to_nat (Z.max 1 num_sources)) accepted)
        end
    | Raise _ => Ret (_get_mock_sources topic)
    end
  /\ (forall url,
        _extract_content w url
        = match page_text w url with
          | Ret text =>
              match clean_text text with
              | [] => Ret None
              | cleaned => Ret (Some (strip (slice_to 2500 cleaned)))
              end
          | Raise _ => Ret None
          end)
  /\ (forall items,
        _analyze_with_openai set_list w items topic
        = match chat_completion w topic (combined_content items)
                  (map source items) with
          | Ret message_content =>
              match json_loads w (clean_response message_content) with
              | Ret analysis => Ret (Parsed analysis)
              | Raise _ => Ret (Record_ (_fallback_analysis set_list items))
              end
          | Raise _ => Ret (Record_ (_fallback_analysis set_list items))
          end)
  /\ (exists found all_content,
        _search_web w topic num_sources = Ret found
        /\ extract_all w found = Ret all_content
        /\ map source all_content = filter (has_content w) found
        /\ Forall (fun item =>
                     _extract_content w (source item)
                     = Ret (Some (content item)))
                  all_content
        /\ match all_content with
           | [] =>
               research_topic set_list w self topic num_sources
               = (Ret (Record_ (_get_mock_research_data topic)), self)
           | _ :: _ =>
               match self with
               | Basic d =>
                   research_topic set_list w self topic num_sources
                   = (Ret (Record_ (keyword_loop set_list all_content d)),
                      Basic (keyword_loop set_list all_content d))
               | WithClient _ =>
                   exists analysis,
                     _analyze_with_openai set_list w all_content topic
                     = Ret analysis
                     /\ research_topic set_list w self topic num_sources
                        = (Ret analysis, WithClient analysis)
               end
           end)
  /\ ((forall url, _extract_content w url = Ret None) ->
      research_topic set_list w self (lit "quantum computing") num_sources
      = (Ret (Record_ (_get_mock_research_data (lit "quantum computing"))),
         self)
      /\ sources (_get_mock_research_data (lit "quantum computing"))
         = [ lit "https://en.wikipedia.org/wiki/Demonstration";
             lit "https://example.com/technical-research";
             lit "https://example.com/industry-analysis" ]).
Proof.
  split; [apply search_web_eq|].
  split; [intros url; apply extract_content_eq|].
  split; [intros items; apply analyze_eq|].
  split.
  - destruct (search_web_total w topic num_sources) as [found [E _]].
    destruct (extract_all_kept w found) as [items [X [M [F _]]]].
    exists found, items. split; [exact E|]. split; [exact X|].
    split; [exact M|]. split; [exact F|].
    rewrite research_topic_eq, E, X.
    destruct items as [|i items]; [reflexivity|].
    destruct self as [d|r0]; [reflexivity|].
    destruct (analyze_total set_list w (i :: items) topic) as [A|[j A]];
      rewrite A; eexists; split; reflexivity.
  - intros H. split; [|reflexivity].
    rewrite research_topic_eq.
    destruct (search_web_total w (lit "quantum computing") num_sources)
      as [l [-> _]].
    now rewrite (extract_all_nothing w l H).
Qed.

Lemma research_never_raises_witness :
  research_topic some_order offline (__init__ false)
    (lit "quantum computing") 3
  = (Ret (Record_ (_get_mock_research_data (lit "quantum computing"))),
     __init__ false).
Proof.
  destruct (research_never_raises some_order offline (__init__ false)
              (lit "quantum computing") 3) as [_ [_ [_ [_ H]]]].
  destruct (H (fun url => eq_refl)) as [E _]. exact E.
Defined.

End Tiers.

(** ** Properties of the web application *)

Module AppFacts.
Import Py Agent Spec PyFacts Properties Rest Coverage App.

(** *** Dictionaries *)

Lemma str_eqb_refl (a : str) : str_eqb a a = true.
Proof. now apply str_eqb_eq. Qed.

Lemma str_eqb_neq (a b : str) : a <> b -> str_eqb a b = false.
Proof.
  intros H. destruct (str_eqb a b) eqn:E; [|reflexivity].
  apply str_eqb_eq in E. contradiction.
Qed.

Section DictFacts.

Context {V : Type}.

Lemma dict_get_set_same (k : str) (v : V) (d : list (str * V)) :
  dict_get k (dict_set k v d) = Some v.
Proof.
  induction d as [|[k' v'] d IH]; cbn [dict_set dict_get].
  - now rewrite str_eqb_refl.
  - destruct (str_eqb k k') eqn:E; cbn [dict_get].
    + now rewrite str_eqb_refl.
    + now rewrite E.
Qed.

Lemma dict_get_set_other (k k' : str) (v : V) (d : list (str * V)) :
  k' <> k -> dict_get k' (dict_set k v d) = dict_get k' d.
Proof.
  intros H. induction d as [|[k0 v0] d IH]; cbn [dict_set dict_get].
  - now rewrite (str_eqb_neq k' k H).
  - destruct (str_eqb k k0) eqn:E; cbn [dict_get].
    + apply str_eqb_eq in E. subst k0. now rewrite (str_eqb_neq k' k H).
    + now rewrite IH.
Qed.

End DictFacts.

(** *** Submitting a topic *)

Lemma start_research_shape (zero_number : str -> bool) (now_id now_iso : str)
  (table : Table) (got : exn (option json)) :
  match start_research zero_number now_id now_iso table got with
  | Ret (resp, table', Some (topic, result_id)) =>
      status_code resp = 200 /\ result_id = now_id
      /\ 1 <= length topic <= 200 /\ tight topic
      /\ dict_get now_id table' = Some (initial_job topic now_iso)
      /\ (forall other, other <> now_id ->
            dict_get other table' = dict_get other table)
      /\ exists fields s,
          got = Ret (Some (JObject fields))
          /\ dict_get (lit "topic") fields = Some (JString s)
          /\ topic = strip s
  | Ret (resp, table', None) =>
      status_code resp = 400 /\ table' = table
      /\ exists data, got = Ret data
  | Raise e =>
      got = Raise e
      \/ exists body,
          got = Ret (Some body) /\ json_truthy zero_number body = true
          /\ forall fields s,
              body = JObject fields ->
              dict_get (lit "topic") fields <> Some (JString s)
  end.
Proof.
  unfold start_research.
  destruct got as [data|e]; cbn [bind]; [|now left].
  destruct data as [body|]; [|split; [|split]; eauto].
  destruct (json_truthy zero_number body) eqn:T; cbn [negb];
    [|split; [|split]; eauto].
  destruct body as [|b|l|s|items|fields]; cbn [bind];
    try (right; eexists; split; [reflexivity|]; split; [exact T|];
         intros ? ? H; discriminate H).
  destruct (dict_get (lit "topic") fields) as [value|] eqn:G.
  - destruct value as [|b|l|s|items|fields']; cbn [bind];
      try (right; eexists; split; [reflexivity|]; split; [exact T|];
           intros ? ? H; injection H as <-; rewrite G; discriminate).
    destruct (strip s) as [|c r] eqn:S; cbn [truthy negb];
      [split; [|split]; eauto|].
    destruct (Nat.ltb_spec 200 (length (c :: r))) as [L|L];
      [split; [|split]; eauto|].
    split; [reflexivity|]. split; [reflexivity|].
    split; [cbn [length] in *; lia|].
    split; [rewrite <- S; apply tight_strip|].
    split; [apply dict_get_set_same|].
    split; [intros other H; now apply dict_get_set_other|].
    exists fields, s. rewrite S. auto.
  - cbn [bind strip truthy negb]. split; [|split]; eauto.
Qed.

Lemma start_research_resp (zero_number : str -> bool) (now_id now_iso : str)
  (table table' : Table) (got : exn (option json)) (resp : response)
  (topic result_id : str) :
  start_research zero_number now_id now_iso table got
  = Ret (resp, table', Some (topic, result_id)) ->
  resp = mkResponse 200
           (Fields [ (lit "result_id", result_id);
                     (lit "status", lit "initializing");
                     (lit "message",
                      lit "Research started successfully!") ]).
Proof.
  unfold start_research. intros H.
  destruct got as [[body|]|e]; cbn [bind] in H; try discriminate.
  destruct (negb (json_truthy zero_number body)); [discriminate|].
  destruct body as [|b|l|s|items|fields]; try discriminate.
  cbn [bind] in H.
  destruct (match dict_get (lit "topic") fields with
            | Some value => value
            | None => JString []
            end) as [|b|l|s|items|fields']; try discriminate.
  cbn [bind] in H.
  destruct (negb (truthy (strip s))); [discriminate|].
  destruct (200 <? length (strip s)); [discriminate|].
  now injection H as <- _ _ <-.
Qed.

(** X21: [start_research] starts a thread only when [get_json] returned an
    object with a string under [topic] that has, once stripped, 1 to 200
    characters; the thread gets the stripped topic, and the view puts the
    initial entry of the job into the table under the new id and keeps the
    other entries. A request that the view answers with an error leaves
    the table as it was and starts nothing. The view raises exactly what
    [get_json] raised on a body that is not JSON, and raises otherwise
    only on a truthy body that is not an object or a topic that is not a
    string. *)
Theorem start_research_cases (zero_number : str -> bool)
  (now_id now_iso : str) (table : Table) (got : exn (option json)) :
  match start_research zero_number now_id now_iso table got with
  | Ret (resp, table', Some (topic, result_id)) =>
      status_code resp = 200 /\ result_id = now_id
      /\ 1 <= length topic <= 200 /\ tight topic
      /\ dict_get now_id table' = Some (initial_job topic now_iso)
      /\ (forall other, other <> now_id ->
            dict_get other table' = dict_get other table)
      /\ exists fields s,
          got = Ret (Some (JObject fields))
          /\ dict_get (lit "topic") fields = Some (JString s)
          /\ topic = strip s
  | Ret (resp, table', None) =>
      status_code resp = 400 /\ table' = table
      /\ exists data, got = Ret data
  | Raise e =>
      got = Raise e
      \/ exists body,
          got = Ret (Some body) /\ json_truthy zero_number body = true
          /\ forall fields s,
              body = JObject fields ->
              dict_get (lit "topic") fields <> Some (JString s)
  end.
Proof. apply start_research_shape. Qed.

(** *** Looking a job up *)

Lemma status_eq (table : Table) (result_id : str) :
  get_research_status table result_id =
  if invalid_id result_id then error_response 400 "Invalid research ID"
  else match dict_get result_id table with
       | Some (item :: job) => mkResponse 200 (Fields (item :: job))
       | _ => error_response 404 "Research not found"
       end.
Proof.
  unfold get_research_status, lookup_job.
  destruct (invalid_id result_id); [reflexivity|].
  destruct (dict_get result_id table) as [[|item job]|]; reflexivity.
Qed.

Lemma status_found (table : Table) (result_id : str) (job : Job)
  (key value : str) :
  invalid_id result_id = false ->
  dict_get result_id table = Some job ->
  dict_get key job = Some value ->
  get_research_status table result_id = mkResponse 200 (Fields job).
Proof.
  intros V G K. rewrite status_eq, V, G.
  destruct job; [discriminate K | reflexivity].
Qed.

Lemma valid_id (result_id : str) :
  isalnum result_id = true -> length result_id <= 50 ->
  invalid_id result_id = false.
Proof.
  intros A L. unfold invalid_id. rewrite A. cbn [negb orb].
  apply Nat.ltb_ge. exact L.
Qed.

(** *** The guard on ids *)

Lemma isalnum_iff (s : str) :
  isalnum s = true <->
  s <> [] /\ forall c, In c s -> isalnum_char c = true.
Proof.
  unfold isalnum. rewrite andb_true_iff, forallb_forall.
  destruct s; cbn [truthy]; split; intros [H1 H2]; split;
    (congruence || assumption || reflexivity || discriminate).
Qed.

Lemma invalid_id_iff (result_id : str) :
  invalid_id result_id = true <->
  result_id = [] \/ 50 < length result_id
  \/ exists c, In c result_id /\ isalnum_char c = false.
Proof.
  unfold invalid_id. rewrite orb_true_iff, negb_true_iff, Nat.ltb_lt.
  split.
  - intros [H|H]; [|auto].
    destruct result_id as [|a r]; [now left|]. right; right.
    unfold isalnum in H. cbn [truthy andb] in H.
    destruct (forallb isalnum_char (a :: r)) eqn:F; [discriminate|].
    assert (E : existsb (fun c => negb (isalnum_char c)) (a :: r) = true).
    { clear H. induction (a :: r) as [|x l IH]; [discriminate|].
      cbn [forallb existsb] in *. destruct (isalnum_char x); cbn in *;
        [now apply IH | reflexivity]. }
    apply existsb_exists in E as [c [Hc Nc]]. exists c.
    split; [exact Hc | now apply negb_true_iff].
  - intros [->|[H|[c [Hc Nc]]]]; [now left | now right | left].
    destruct (isalnum result_id) eqn:A; [|reflexivity].
    apply isalnum_iff in A as [_ A]. rewrite (A c Hc) in Nc. discriminate.
Qed.

(** X23: both views refuse, with 400 and without looking at the table or
    the file system, exactly the ids that are empty, longer than 50
    characters or hold a character that is not alphanumeric, such as a
    slash, a backslash or a dot. *)
Theorem id_guard (path_exists : str -> bool)
  (send_file : str -> str -> exn unit) (table : Table) (result_id : str) :
  (invalid_id result_id = true <->
   result_id = [] \/ 50 < length result_id
   \/ exists c, In c result_id /\ isalnum_char c = false)
  /\ (invalid_id result_id = true ->
      get_research_status table result_id
      = error_response 400 "Invalid research ID"
      /\ download_presentation path_exists send_file table result_id
         = Ret (error_response 400 "Invalid research ID"))
  /\ (invalid_id result_id = false ->
      status_code (get_research_status table result_id) <> 400)
  /\ isalnum_char "/"%char = false /\ isalnum_char "\"%char = false
  /\ isalnum_char "."%char = false.
Proof.
  split; [apply invalid_id_iff|]. split; [|split].
  - intros H. unfold get_research_status, download_presentation.
    rewrite H. split; reflexivity.
  - intros H. rewrite status_eq, H.
    destruct (dict_get result_id table) as [[|item job]|]; discriminate.
  - repeat split.
Qed.

(** *** The name of the download *)

Lemma safe_topic_prefix (topic : str) :
  exists w, filter safe_char topic = safe_topic topic ++ w.
Proof.
  unfold safe_topic. destruct (rstrip_prefix (filter safe_char topic))
    as [w [E _]]. now exists w.
Qed.

Lemma safe_topic_chars (topic : str) (c : ascii) :
  In c (safe_topic topic) -> safe_char c = true /\ In c topic.
Proof.
  destruct (safe_topic_prefix topic) as [w E]. intros H.
  assert (F : In c (filter safe_char topic))
    by (rewrite E; apply in_or_app; now left).
  apply filter_In in F. tauto.
Qed.

Lemma filter_all {A : Type} (f : A -> bool) (l : list A) :
  (forall x, In x l -> f x = true) -> filter f l = l.
Proof.
  induction l as [|a l IH]; intros H; cbn [filter]; [reflexivity|].
  rewrite (H a (or_introl eq_refl)), IH; [reflexivity|].
  intros x Hx. apply H. now right.
Qed.

Lemma rstrip_fix (s : str) :
  (forall c r, rev s = c :: r -> isspace c = false) -> rstrip s = s.
Proof.
  intros H. unfold rstrip. rewrite (lstrip_fix _ H). apply rev_involutive.
Qed.

(** X24: the name under which a presentation is downloaded is
    [research_], the safe form of the topic and [.md]. The safe form holds
    only characters of the topic, in their order, that are alphanumeric, a
    space, a hyphen or an underscore, so no slash, backslash or dot and no
    control character, and it does not end with a space; a topic made of
    such characters that does not end with whitespace is its own safe
    form. *)
Theorem download_name_safe (topic : str) :
  download_name topic = lit "research_" ++ safe_topic topic ++ lit ".md"
  /\ (forall c, In c (safe_topic topic) ->
        In c topic /\ safe_char c = true /\ 32 <= code c
        /\ c <> "/"%char /\ c <> "\"%char /\ c <> "."%char)
  /\ length (safe_topic topic) <= length topic
  /\ (forall c r, rev (safe_topic topic) = c :: r -> isspace c = false)
  /\ ((forall c, In c topic -> safe_char c = true) ->
      (forall c r, rev topic = c :: r -> isspace c = false) ->
      safe_topic topic = topic).
Proof.
  split; [reflexivity|]. split; [|split; [|split]].
  - intros c H. apply safe_topic_chars in H as [S I].
    split; [exact I|]. split; [exact S|].
    revert S. clear. destruct c as [[] [] [] [] [] [] [] []];
      vm_compute; intros S; try discriminate S;
      (split; [repeat constructor|]); repeat split; discriminate.
  - unfold safe_topic. etransitivity; [apply length_rstrip|].
    apply filter_length_le.
  - unfold safe_topic, rstrip. rewrite rev_involutive.
    intros c r. apply lstrip_head.
  - intros H T. unfold safe_topic. rewrite (filter_all _ _ H).
    now apply rstrip_fix.
Qed.

Lemma download_name_safe_witness :
  safe_topic (lit "quantum computing") = lit "quantum computing".
Proof.
  refine (proj2 (proj2 (proj2 (proj2
            (download_name_safe (lit "quantum computing"))))) _ _).
  - intros c H. vm_compute in H.
    repeat (destruct H as [<-|H]; [reflexivity|]). destruct H.
  - intros c r H. vm_compute in H. injection H as <- _. reflexivity.
Defined.

(** *** The thread of a job *)

Lemma research_topic_ret (set_list : list str -> list str) (w : World)
  (self : agent) (topic : str) (n : Z) :
  exists r, fst (research_topic set_list w self topic n) = Ret r.
Proof.
  rewrite research_topic_eq.
  destruct (search_web_total w topic n) as [found [-> _]].
  destruct (extract_all_total w found) as [[|i items] ->];
    [eexists; reflexivity|].
  destruct self as [d|r0]; [eexists; reflexivity|].
  destruct (analyze_total set_list w (i :: items) topic) as [->|[j ->]];
    eexists; reflexivity.
Qed.

Lemma write_field_some (result_id key value : str) (job : Job)
  (table : Table) :
  dict_get result_id table = Some job ->
  write_field result_id key value table
  = Some (dict_set result_id (dict_set key value job) table).
Proof. intros H. unfold write_field. now rewrite H. Qed.

Lemma job_status_set (result_id : str) (job : Job) (table : Table) :
  job_status (dict_set result_id job table) result_id
  = dict_get (lit "status") job.
Proof. unfold job_status. now rewrite dict_get_set_same. Qed.

Ltac lit_neq := let H := fresh in intro H; vm_compute in H; discriminate H.

Section ThreadFacts.

Variable set_list : list str -> list str.

(** The writes of a thread: either the handler alone, or the four writes
    of progress and then the completed entry or the handler. *)
Lemma run_trace_cases (sv : Services) (topic result_id : str)
  (table : Table) :
  (exists e,
     run_trace set_list sv topic result_id table
     = failed sv result_id e table
     /\ ((exists e0, make_agent sv = Raise e0)
         \/ dict_get result_id table = None
         \/ exists e0, make_generator sv = Raise e0))
  \/ exists has_client u job research_data t1 t2 t3 t4 final,
      make_agent sv = Ret has_client
      /\ make_generator sv = Ret u
      /\ dict_get result_id table = Some job
      /\ fst (research_topic set_list (world sv) (__init__ has_client)
                topic 3) = Ret research_data
      /\ run_trace set_list sv topic result_id table
         = [t1; t2; t3; t4; final]
      /\ Forall (fun t =>
           (forall other, other <> result_id ->
              dict_get other t = dict_get other table)
           /\ exists j,
               dict_get result_id t = Some j
               /\ dict_get (lit "topic") j = dict_get (lit "topic") job
               /\ (dict_get (lit "status") j = Some (lit "searching")
                   \/ dict_get (lit "status") j = Some (lit "analyzing")))
           [t1; t2; t3; t4]
      /\ ((exists e,
             final = dict_set result_id (error_job sv e) t4
             /\ ((exists e0,
                    generate_presentation sv research_data topic = Raise e0)
                 \/ exists presentation,
                     generate_presentation sv research_data topic
                     = Ret presentation
                     /\ ((exists e0,
                            write_file sv (job_filepath sv result_id)
                              presentation = Raise e0)
                         \/ exists e0,
                             markdown_html sv presentation = Raise e0)))
          \/ exists presentation html_content u',
              generate_presentation sv research_data topic = Ret presentation
              /\ write_file sv (job_filepath sv result_id) presentation
                 = Ret u'
              /\ markdown_html sv presentation = Ret html_content
              /\ final = dict_set result_id
                           (completed_job sv topic result_id presentation
                              html_content) t4).
Proof.
  unfold run_trace.
  destruct (make_agent sv) as [c|e] eqn:A;
    [|left; exists e; split; [reflexivity | left; eauto]].
  destruct (make_generator sv) as [u|e] eqn:M;
    [|left; exists e; split; [reflexivity | right; right; eauto]].
  destruct (dict_get result_id table) as [job|] eqn:G.
  2:{ left. exists Error. unfold write_field. rewrite G.
      split; [reflexivity | right; left; reflexivity]. }
  right.
  destruct (research_topic_ret set_list (world sv) (__init__ c) topic 3)
    as [rd R].
  rewrite (write_field_some _ _ _ job table G).
  set (j1 := dict_set (lit "status") (lit "searching") job).
  set (t1 := dict_set result_id j1 table).
  rewrite (write_field_some _ _ _ j1 t1 (dict_get_set_same _ _ _)).
  set (j2 := dict_set (lit "message") _ j1).
  set (t2 := dict_set result_id j2 t1).
  rewrite R.
  rewrite (write_field_some _ _ _ j2 t2 (dict_get_set_same _ _ _)).
  set (j3 := dict_set (lit "status") (lit "analyzing") j2).
  set (t3 := dict_set result_id j3 t2).
  rewrite (write_field_some _ _ _ j3 t3 (dict_get_set_same _ _ _)).
  set (j4 := dict_set (lit "message") _ j3).
  set (t4 := dict_set result_id j4 t3).
  assert (K1 : dict_get (lit "topic") j1 = dict_get (lit "topic") job)
    by (apply dict_get_set_other; lit_neq).
  assert (K2 : dict_get (lit "topic") j2 = dict_get (lit "topic") job)
    by (unfold j2; rewrite dict_get_set_other by lit_neq; exact K1).
  assert (K3 : dict_get (lit "topic") j3 = dict_get (lit "topic") job)
    by (unfold j3; rewrite dict_get_set_other by lit_neq; exact K2).
  assert (K4 : dict_get (lit "topic") j4 = dict_get (lit "topic") job)
    by (unfold j4; rewrite dict_get_set_other by lit_neq; exact K3).
  assert (S1 : dict_get (lit "status") j1 = Some (lit "searching"))
    by apply dict_get_set_same.
  assert (S2 : dict_get (lit "status") j2 = Some (lit "searching"))
    by (unfold j2; rewrite dict_get_set_other by lit_neq; exact S1).
  assert (S3 : dict_get (lit "status") j3 = Some (lit "analyzing"))
    by apply dict_get_set_same.
  assert (S4 : dict_get (lit "status") j4 = Some (lit "analyzing"))
    by (unfold j4; rewrite dict_get_set_other by lit_neq; exact S3).
  assert (O1 : forall other, other <> result_id ->
                 dict_get other t1 = dict_get other table)
    by (intros other Ho; now apply dict_get_set_other).
  assert (O2 : forall other, other <> result_id ->
                 dict_get other t2 = dict_get other table)
    by (intros other Ho; unfold t2;
        rewrite dict_get_set_other by exact Ho; now apply O1).
  assert (O3 : forall other, other <> result_id ->
                 dict_get other t3 = dict_get other table)
    by (intros other Ho; unfold t3;
        rewrite dict_get_set_other by exact Ho; now apply O2).
  assert (O4 : forall other, other <> result_id ->
                 dict_get other t4 = dict_get other table)
    by (intros other Ho; unfold t4;
        rewrite dict_get_set_other by exact Ho; now apply O3).
  assert (F : Forall (fun t =>
           (forall other, other <> result_id ->
              dict_get other t = dict_get other table)
           /\ exists j,
               dict_get result_id t = Some j
               /\ dict_get (lit "topic") j = dict_get (lit "topic") job
               /\ (dict_get (lit "status") j = Some (lit "searching")
                   \/ dict_get (lit "status") j = Some (lit "analyzing")))
           [t1; t2; t3; t4]).
  { apply Forall_cons;
      [split; [exact O1|]; exists j1;
       split; [apply dict_get_set_same|]; split; [exact K1 | now left]|].
    apply Forall_cons;
      [split; [exact O2|]; exists j2;
       split; [apply dict_get_set_same|]; split; [exact K2 | now left]|].
    apply Forall_cons;
      [split; [exact O3|]; exists j3;
       split; [apply dict_get_set_same|]; split; [exact K3 | now right]|].
    apply Forall_cons;
      [split; [exact O4|]; exists j4;
       split; [apply dict_get_set_same|]; split; [exact K4 | now right]|].
    apply Forall_nil. }
  destruct (generate_presentation sv rd topic) as [p|e] eqn:Gp.
  2:{ exists c, u, job, rd, t1, t2, t3, t4. eexists.
      do 3 (split; [reflexivity|]). split; [exact R|].
      split; [reflexivity|].
      split; [exact F|]. left. exists e. split; [reflexivity|].
      left. eauto. }
  destruct (write_file sv (job_filepath sv result_id) p) as [u'|e] eqn:W.
  2:{ exists c, u, job, rd, t1, t2, t3, t4. eexists.
      do 3 (split; [reflexivity|]). split; [exact R|].
      split; [reflexivity|].
      split; [exact F|]. left. exists e. split; [reflexivity|].
      right. exists p. split; [exact Gp|]. left. eauto. }
  destruct (markdown_html sv p) as [h|e] eqn:H.
  2:{ exists c, u, job, rd, t1, t2, t3, t4. eexists.
      do 3 (split; [reflexivity|]). split; [exact R|].
      split; [reflexivity|].
      split; [exact F|]. left. exists e. split; [reflexivity|].
      right. exists p. split; [exact Gp|]. right. eauto. }
  exists c, u, job, rd, t1, t2, t3, t4. eexists.
  do 3 (split; [reflexivity|]). split; [exact R|].
      split; [reflexivity|].
  split; [exact F|]. right. exists p, h, u'.
  split; [exact Gp|]. split; [exact W|]. split; [exact H|]. reflexivity.
Qed.

(** Every table of the thread of a job whose entry carries the topic shows
    the job, and no other entry differs from the table that the thread
    started on. *)
Lemma run_trace_shows (sv : Services) (topic result_id : str)
  (table : Table) (job : Job) :
  dict_get result_id table = Some job ->
  dict_get (lit "topic") job = Some topic ->
  Forall (fun t =>
            (exists j, dict_get result_id t = Some j /\ shows_job topic j)
            /\ forall other, other <> result_id ->
                 dict_get other t = dict_get other table)
    (run_trace set_list sv topic result_id table).
Proof.
  intros G T.
  assert (E : forall e t,
             (forall other, other <> result_id ->
                dict_get other t = dict_get other table) ->
             (exists j, dict_get result_id
                          (dict_set result_id (error_job sv e) t) = Some j
                        /\ shows_job topic j)
             /\ forall other, other <> result_id ->
                  dict_get other (dict_set result_id (error_job sv e) t)
                  = dict_get other table).
  { intros e t O. split.
    - eexists. split; [apply dict_get_set_same|].
      exists (lit "error"). split; [reflexivity|].
      split; [cbn [map In]; auto 7 | intros N; now contradiction N].
    - intros other Ho. rewrite dict_get_set_other by exact Ho.
      now apply O. }
  destruct (run_trace_cases sv topic result_id table)
    as [[e [-> _]]
       |(c & u & job' & rd & t1 & t2 & t3 & t4 & final & _ & _ & G' & _
         & -> & F & C)].
  - apply Forall_cons; [now apply E | apply Forall_nil].
  - rewrite G in G'. injection G' as <-.
    change [t1; t2; t3; t4; final] with ([t1; t2; t3; t4] ++ [final]).
    assert (O4 : forall other, other <> result_id ->
                   dict_get other t4 = dict_get other table).
    { apply (proj1 (Forall_forall _ _) F t4).
      right; right; right; left; reflexivity. }
    apply Forall_app. split.
    + eapply Forall_impl; [|exact F]. cbv beta.
      intros t [O [j [Gj [Tj Sj]]]]. split; [|exact O].
      exists j. split; [exact Gj|].
      destruct Sj as [Sj|Sj]; eexists; (split; [exact Sj|]);
        (split; [cbn [map In]; auto 7 | intros _; now rewrite Tj]).
    + apply Forall_cons; [|apply Forall_nil].
      destruct C as [[e [-> _]]|(p & h & u' & _ & _ & _ & ->)];
        [now apply E|].
      split.
      * eexists. split; [apply dict_get_set_same|].
        exists (lit "completed"). split; [reflexivity|].
        split; [cbn [map In]; auto 7 | intros _; reflexivity].
      * intros other Ho. rewrite dict_get_set_other by exact Ho.
        now apply O4.
Qed.

(** X25: a thread always leaves its job with the status [completed] or
    [error], never in progress, and touches no other entry of the table.
    It ends with [error] only when the agent cannot be built because its
    message cannot be printed, when the entry of the job is missing, or
    when the presentation generator, the writing of the file or [markdown]
    raises: once the agent is built, research itself never makes a job
    fail. *)
Theorem run_outcome (sv : Services) (topic result_id : str) (table : Table) :
  let table' := run set_list sv topic result_id table in
  (forall other, other <> result_id ->
     dict_get other table' = dict_get other table)
  /\ (job_status table' result_id = Some (lit "completed")
      \/ (job_status table' result_id = Some (lit "error")
          /\ outside_failure set_list sv topic result_id table)).
Proof.
  cbv zeta. unfold run, outside_failure.
  destruct (run_trace_cases sv topic result_id table)
    as [[e [-> C]]
       |(c & u & job & rd & t1 & t2 & t3 & t4 & final & A & M & G & R
         & -> & F & C)].
  - cbn [failed last]. split.
    + intros other Ho. now apply dict_get_set_other.
    + right. split; [now rewrite job_status_set|].
      destruct C as [C|[C|C]]; auto.
  - cbn [last].
    assert (O4 : forall other, other <> result_id ->
                   dict_get other t4 = dict_get other table).
    { apply (proj1 (Forall_forall _ _) F t4).
      right; right; right; left; reflexivity. }
    destruct C as [[e [-> C]]|(p & h & u' & _ & _ & _ & ->)].
    + split.
      * intros other Ho. rewrite dict_get_set_other by exact Ho.
        now apply O4.
      * right. split; [now rewrite job_status_set|].
        right; right; right. exists c, rd.
        split; [exact A|]. split; [exact R|]. exact C.
    + split.
      * intros other Ho. rewrite dict_get_set_other by exact Ho.
        now apply O4.
      * left. now rewrite job_status_set.
Qed.

Lemma run_completed (sv : Services) (topic result_id : str) (table : Table)
  (has_client : bool) (research_data : Result)
  (presentation html_content : str) (u u' : unit) :
  dict_get result_id table <> None ->
  make_agent sv = Ret has_client ->
  make_generator sv = Ret u ->
  fst (research_topic set_list (world sv) (__init__ has_client) topic 3)
  = Ret research_data ->
  generate_presentation sv research_data topic = Ret presentation ->
  write_file sv (job_filepath sv result_id) presentation = Ret u' ->
  markdown_html sv presentation = Ret html_content ->
  dict_get result_id (run set_list sv topic result_id table)
  = Some (completed_job sv topic result_id presentation html_content).
Proof.
  intros N A M R G W H. unfold run, run_trace.
  destruct (dict_get result_id table) as [job|] eqn:E; [|congruence].
  rewrite A, M, (write_field_some _ _ _ job table E).
  rewrite (write_field_some _ _ _ _ _ (dict_get_set_same _ _ _)).
  rewrite R.
  rewrite (write_field_some _ _ _ _ _ (dict_get_set_same _ _ _)).
  rewrite (write_field_some _ _ _ _ _ (dict_get_set_same _ _ _)).
  rewrite G, W, H. cbn [last]. apply dict_get_set_same.
Qed.

End ThreadFacts.

(** X22: a job that [start_research] accepted under an id that is
    alphanumeric and has at most 50 characters is found by
    [get_research_status] at every point of its thread: in the table that
    the view left, after each write of the thread and when the thread has
    finished, the answer for the id is 200 with the entry of the job,
    whose status is one of [initializing], [searching], [analyzing],
    [completed] and [error] and which carries the stripped topic unless
    the status is [error]; the request and its thread change the answer
    for no other id. *)
Theorem status_after_start (set_list : list str -> list str) (sv : Services)
  (zero_number : str -> bool) (now_id now_iso : str) (table table1 : Table)
  (got : exn (option json)) (resp : response) (topic result_id : str) :
  start_research zero_number now_id now_iso table got
  = Ret (resp, table1, Some (topic, result_id)) ->
  isalnum result_id = true -> length result_id <= 50 ->
  resp = mkResponse 200
           (Fields [ (lit "result_id", result_id);
                     (lit "status", lit "initializing");
                     (lit "message",
                      lit "Research started successfully!") ])
  /\ Forall (fun t =>
       (exists job,
          get_research_status t result_id = mkResponse 200 (Fields job)
          /\ shows_job topic job)
       /\ forall other, other <> result_id ->
            get_research_status t other = get_research_status table other)
       (table1 :: run_trace set_list sv topic result_id table1).
Proof.
  intros H A L. split; [exact (start_research_resp _ _ _ _ _ _ _ _ _ H)|].
  assert (C := start_research_shape zero_number now_id now_iso table got).
  rewrite H in C.
  destruct C as [_ [-> [_ [_ [G [O _]]]]]].
  assert (V := valid_id now_id A L).
  apply Forall_cons.
  - split.
    + exists (initial_job topic now_iso).
      split; [exact (status_found _ _ _ (lit "status") _ V G eq_refl)|].
      exists (lit "initializing"). split; [reflexivity|].
      split; [cbn [map In]; auto 7 | intros _; reflexivity].
    + intros other Ho. rewrite !status_eq, (O other Ho). reflexivity.
  - eapply Forall_impl;
      [|exact (run_trace_shows set_list sv topic now_id table1 _ G eq_refl)].
    cbv beta. intros t [[j [Gj Sj]] Ot]. split.
    + exists j. split; [|exact Sj].
      destruct Sj as [status [Sj _]].
      exact (status_found _ _ _ _ _ V Gj Sj).
    + intros other Ho. rewrite !status_eq, (Ot other Ho), (O other Ho).
      reflexivity.
Qed.

Lemma status_after_start_witness :
  Forall (fun t =>
       (exists job,
          get_research_status t some_id = mkResponse 200 (Fields job)
          /\ shows_job (lit "qubits") job)
       /\ forall other, other <> some_id ->
            get_research_status t other = get_research_status [] other)
    (dict_set some_id (initial_job (lit "qubits") (lit "now")) []
     :: run_trace some_order plain_services (lit "qubits") some_id
          (dict_set some_id (initial_job (lit "qubits") (lit "now")) [])).
Proof.
  refine (proj2 (status_after_start some_order plain_services
                   (fun _ => false) some_id (lit "now") []
                   (dict_set some_id (initial_job (lit "qubits") (lit "now"))
                      [])
                   (Ret (Some (JObject
                                 [(lit "topic", JString (lit " qubits "))])))
                   _ (lit "qubits") some_id eq_refl eq_refl _)).
  vm_compute. lia.
Defined.

(** *** Downloading *)

Lemma download_eq (path_exists : str -> bool)
  (send_file : str -> str -> exn unit) (table : Table)
  (result_id : str) (job : Job) (topic filepath : str) (u : unit) :
  invalid_id result_id = false ->
  dict_get result_id table = Some job ->
  dict_get (lit "status") job = Some (lit "completed") ->
  dict_get (lit "filepath") job = Some filepath ->
  dict_get (lit "topic") job = Some topic ->
  filepath <> [] -> path_exists filepath = true ->
  send_file filepath (download_name topic) = Ret u ->
  download_presentation path_exists send_file table result_id
  = Ret (mkResponse 200 (Attachment filepath (download_name topic))).
Proof.
  intros V G S F T N E Sf. unfold download_presentation, lookup_job.
  rewrite V, G, S, F, T, E, str_eqb_refl.
  destruct filepath; [congruence|]. cbn [truthy negb orb bind].
  rewrite Sf. reflexivity.
Qed.

(** X26: a topic that is submitted, researched and rendered can be
    downloaded. When [start_research] accepts a request under an id that
    is alphanumeric and has at most 50 characters, and for the thread of
    the job the agent is built and the generator, the writing of the file
    and [markdown] succeed, then, once the thread has finished, the status
    view shows the completed entry with the stripped topic; and the
    download view sends the file that the thread wrote, under the name
    made of the safe form of the topic, provided that [os.path.exists]
    finds the file and [send_file] opens it. *)
Theorem submit_run_download (set_list : list str -> list str)
  (sv : Services) (path_exists : str -> bool)
  (send_file : str -> str -> exn unit) (now_id now_iso : str)
  (table table1 : Table) (got : exn (option json)) (resp : response)
  (topic result_id : str) (has_client : bool) (research_data : Result)
  (presentation html_content : str) (u u' u'' : unit)
  (zero_number : str -> bool) :
  start_research zero_number now_id now_iso table got
  = Ret (resp, table1, Some (topic, result_id)) ->
  isalnum result_id = true -> length result_id <= 50 ->
  make_agent sv = Ret has_client ->
  make_generator sv = Ret u ->
  fst (research_topic set_list (world sv) (__init__ has_client) topic 3)
  = Ret research_data ->
  generate_presentation sv research_data topic = Ret presentation ->
  write_file sv (job_filepath sv result_id) presentation = Ret u' ->
  markdown_html sv presentation = Ret html_content ->
  job_filepath sv result_id <> [] ->
  path_exists (job_filepath sv result_id) = true ->
  send_file (job_filepath sv result_id) (download_name topic) = Ret u'' ->
  let table2 := run set_list sv topic result_id table1 in
  get_research_status table2 result_id
  = mkResponse 200
      (Fields (completed_job sv topic result_id presentation html_content))
  /\ download_presentation path_exists send_file table2 result_id
     = Ret (mkResponse 200
              (Attachment (job_filepath sv result_id) (download_name topic))).
Proof.
  intros S A L Ag M R G W H N E Sf table2.
  assert (C := start_research_shape zero_number now_id now_iso table got).
  rewrite S in C. destruct C as [_ [-> [_ [_ [G1 _]]]]].
  assert (V := valid_id now_id A L).
  assert (D : dict_get now_id table2
              = Some (completed_job sv topic now_id presentation
                        html_content)).
  { unfold table2.
    apply (run_completed set_list sv topic now_id table1 has_client
             research_data presentation html_content u u');
      try assumption.
    rewrite G1. discriminate. }
  split.
  - rewrite status_eq, V, D. reflexivity.
  - apply (download_eq path_exists send_file table2 now_id _ topic _ u''
             V D); try reflexivity; assumption.
Qed.

Lemma submit_run_download_witness :
  download_presentation (fun _ => true) (fun _ _ => Ret tt)
    (run some_order plain_services (lit "qubits") some_id
       (dict_set some_id (initial_job (lit "qubits") (lit "now")) []))
    some_id
  = Ret (mkResponse 200
           (Attachment (job_filepath plain_services some_id)
              (download_name (lit "qubits")))).
Proof.
  destruct (research_topic_ret some_order rich_world (__init__ false)
              (lit "qubits") 3) as [rd R].
  refine (proj2 (submit_run_download some_order plain_services
                   (fun _ => true) (fun _ _ => Ret tt) some_id (lit "now") []
                   (dict_set some_id (initial_job (lit "qubits") (lit "now"))
                      [])
                   (Ret (Some (JObject
                                 [(lit "topic", JString (lit " qubits "))])))
                   _ (lit "qubits") some_id false rd (lit "qubits")
                   (lit "qubits") tt tt tt (fun _ => false) eq_refl eq_refl _
                   eq_refl eq_refl R eq_refl eq_refl eq_refl _ eq_refl
                   eq_refl)).
  - vm_compute. lia.
  - discriminate.
Defined.

(** X27: the download view sends a file only for an id that passes the
    guard and whose job is completed, and then it is the file named by the
    [filepath] of the job, which exists and which [send_file] opened,
    under the name made of the safe form of the job's topic. *)
Theorem download_requires_completed (path_exists : str -> bool)
  (send_file : str -> str -> exn unit) (table : Table) (result_id : str)
  (code : nat) (filepath name : str) :
  download_presentation path_exists send_file table result_id
  = Ret (mkResponse code (Attachment filepath name)) ->
  code = 200 /\ isalnum result_id = true /\ length result_id <= 50
  /\ job_status table result_id = Some (lit "completed")
  /\ path_exists filepath = true /\ filepath <> []
  /\ send_file filepath name = Ret tt
  /\ exists job topic,
      dict_get result_id table = Some job
      /\ dict_get (lit "filepath") job = Some filepath
      /\ dict_get (lit "topic") job = Some topic
      /\ name = download_name topic.
Proof.
  unfold download_presentation, lookup_job, job_status, error_response.
  destruct (invalid_id result_id) eqn:V; [discriminate|].
  unfold invalid_id in V. apply orb_false_iff in V as [V1 V2].
  apply negb_false_iff in V1. apply Nat.ltb_ge in V2.
  destruct (dict_get result_id table) as [job|] eqn:G;
    [|cbn [dict_get negb]; discriminate].
  destruct (dict_get (lit "status") job) as [status|] eqn:S;
    [|cbn [negb]; discriminate].
  destruct (str_eqb status (lit "completed")) eqn:Es; cbn [negb];
    [|discriminate].
  apply str_eqb_eq in Es. subst status.
  destruct (dict_get (lit "filepath") job) as [f|] eqn:F; [|discriminate].
  destruct (truthy f) eqn:Tf; cbn [negb orb]; [|discriminate].
  destruct (path_exists f) eqn:E; cbn [negb]; [|discriminate].
  destruct (dict_get (lit "topic") job) as [topic|] eqn:T; cbn [bind];
    [|discriminate].
  destruct (send_file f (download_name topic)) as [[]|e] eqn:Sf;
    cbn [bind]; [|discriminate].
  intros H. injection H as <- <- <-.
  split; [reflexivity|]. split; [exact V1|]. split; [exact V2|].
  split; [reflexivity|]. split; [exact E|].
  split; [destruct f; [discriminate Tf | discriminate]|].
  split; [exact Sf|].
  exists job, topic. auto.
Qed.

Lemma download_requires_completed_witness :
  job_status finished_table some_id = Some (lit "completed").
Proof.
  refine (proj1 (proj2 (proj2 (proj2
            (download_requires_completed (fun _ => true) (fun _ _ => Ret tt)
               finished_table some_id 200
               (job_filepath plain_services some_id)
               (download_name (lit "qu/bits ")) _))))).
  reflexivity.
Defined.

End AppFacts.
